(** * Risk engine of the oil trading system: a shallow embedding

    The development follows [src/OilTrading.Api/Scripts/risk_engine.py].

    Conventions of the embedding.
    - A Python [float] is an exact rational ([Q]); equality of floats is
      [Qeq].  Rounding error, overflow and NaN are outside the model;
      the statements that need NumPy's sample statistics to be numbers
      are stated on [regular_sample].
    - A value produced by [float(np.round(x))] is a whole number ([Z]).
    - A raised exception is the [Raise] branch of [result].
    - A position is the JSON object received from the caller: a key that
      is absent is [None], and subscripting it raises [KeyError].
    - A dict is an association list in insertion order.
    - NumPy's global generator is an explicit state threaded through the
      sampling calls.
    - SciPy, arch and the linear-algebra and sampling routines of NumPy
      are the fields of the class [NumLib]. *)

From Stdlib Require Import String QArith Qabs Qround Qminmax Qpower ZArith List Bool.
From Stdlib Require Import Lia Lqa Permutation Sorted Morphisms Setoid.
Import ListNotations.
Open Scope string_scope.
Open Scope Q_scope.

(** ** Exceptions *)

Inductive exn : Type :=
| KeyError (key : string)
| IndexError
| UnboundLocalError (name : string)
| LinAlgError
| LibraryError (msg : string).

Inductive result (A : Type) : Type :=
| Ok (a : A)
| Raise (e : exn).

Arguments Ok {A} a.
Arguments Raise {A} e.

Definition bind {A B : Type} (m : result A) (k : A -> result B) : result B :=
  match m with
  | Ok a => k a
  | Raise e => Raise e
  end.

Notation "x <- m ;; k" := (bind m (fun x => k))
  (at level 61, m at next level, right associativity).

(** ** Python and NumPy primitives *)

Module Py.

(** [d[key]] on a JSON object field. *)
Definition getitem {A : Type} (key : string) (field : option A) : result A :=
  match field with
  | Some a => Ok a
  | None => Raise (KeyError key)
  end.

(** Reading a local variable that an interrupted [try] body may not have
    bound. *)
Definition local {A : Type} (name : string) (v : option A) : result A :=
  match v with
  | Some a => Ok a
  | None => Raise (UnboundLocalError name)
  end.

(** [int(x)]: truncation toward zero. *)
Definition int (x : Q) : Z := Z.quot (Qnum x) (Zpos (Qden x)).

(** [a[i]] on a sequence: negative indices count from the end, an index
    out of range raises [IndexError]. *)
Definition index {A : Type} (a : list A) (i : Z) : result A :=
  let n := Z.of_nat (length a) in
  let j := if (i <? 0)%Z then (n + i)%Z else i in
  if (j <? 0)%Z then Raise IndexError
  else match nth_error a (Z.to_nat j) with
       | Some x => Ok x
       | None => Raise IndexError
       end.

(** [key in d] and [d[key]] on a dict. *)
Fixpoint dict_get {A : Type} (d : list (string * A)) (key : string) : option A :=
  match d with
  | [] => None
  | (k, v) :: rest => if String.eqb k key then Some v else dict_get rest key
  end.

Definition dict_keys {A : Type} (d : list (string * A)) : list string :=
  map fst d.

Definition dict_values {A : Type} (d : list (string * A)) : list A :=
  map snd d.

(** [l.index(x)] where [x in l]; [None] when [x] is not in [l]. *)
Fixpoint list_index (l : list string) (x : string) : option nat :=
  match l with
  | [] => None
  | y :: rest =>
      if String.eqb y x then Some O
      else match list_index rest x with
           | Some i => Some (S i)
           | None => None
           end
  end.

(** [min(len(r) for r in rs)] on a non-empty collection. *)
Definition min_len {A : Type} (first : list A) (rest : list (list A)) : nat :=
  fold_left (fun m r => Nat.min m (length r)) rest (length first).

End Py.

Module Np.

Definition zeros (n : nat) : list Q := repeat 0 n.

(** Element-wise sum of two arrays of one shape. *)
Fixpoint add (a b : list Q) : list Q :=
  match a, b with
  | x :: a', y :: b' => (x + y) :: add a' b'
  | _, _ => []
  end.

Fixpoint sub (a b : list Q) : list Q :=
  match a, b with
  | x :: a', y :: b' => (x - y) :: sub a' b'
  | _, _ => []
  end.

(** Element-wise product. *)
Fixpoint mul (a b : list Q) : list Q :=
  match a, b with
  | x :: a', y :: b' => (x * y) :: mul a' b'
  | _, _ => []
  end.

Definition scale (c : Q) (a : list Q) : list Q := map (fun x => c * x) a.

Definition neg (a : list Q) : list Q := map Qopp a.

Definition sum (a : list Q) : Q := fold_left Qplus a 0.

(** [np.round]: to the nearest whole number, a tie to the even one. *)
Definition round (x : Q) : Z :=
  let f := Qfloor x in
  match ((x - inject_Z f) ?= (1 # 2))%Q with
  | Lt => f
  | Gt => (f + 1)%Z
  | Eq => if Z.even f then f else (f + 1)%Z
  end.

(** [np.sort]: ascending. *)
Fixpoint insert (x : Q) (l : list Q) : list Q :=
  match l with
  | [] => [x]
  | y :: rest => if Qle_bool x y then x :: l else y :: insert x rest
  end.

Definition sort (a : list Q) : list Q := fold_right insert [] a.

(** Linear interpolation of a sorted sample at a fractional rank: between
    the entries at [floor rank] and the next one (the last entry at
    most). *)
Definition interpolate (a : list Q) (rank : Q) : Q :=
  let lo := Z.to_nat (Qfloor rank) in
  let hi := Nat.min (S lo) (length a - 1) in
  let gamma := rank - inject_Z (Qfloor rank) in
  nth lo a 0 + gamma * (nth hi a 0 - nth lo a 0).

(** [np.percentile(a, q)] with the default linear method, on a sorted
    sample of at least one value: the value at the fractional rank
    [(n - 1) * q / 100].  On an empty sample NumPy has no value to
    return (it raises or yields NaN); the definition is not meant there,
    and the statements about simulated samples require at least one
    draw. *)
Definition percentile (a : list Q) (q : Q) : Q :=
  interpolate a (inject_Z (Z.of_nat (length a - 1)) * q / 100).

(** [np.mean] of a column of at least one observation.  On an empty
    column NumPy divides by zero and yields NaN, which the rationals do
    not have; the definition is not meant there. *)
Definition mean (a : list Q) : Q :=
  sum a / inject_Z (Z.of_nat (length a)).

(** Sample covariance of two columns of at least two observations, as
    in [np.cov] (one degree of freedom removed).  With fewer than two
    observations NumPy divides by zero and yields NaN, which the
    rationals do not have; the definition is not meant there. *)
Definition cov2 (a b : list Q) : Q :=
  let ma := mean a in
  let mb := mean b in
  sum (mul (map (fun x => x - ma) a) (map (fun y => y - mb) b))
  / inject_Z (Z.of_nat (length a) - 1).

(** Matrices are lists of rows. *)
Definition matrix : Type := list (list Q).

(** [np.cov(m, rowvar=False)] where [cols] are the columns of [m]. *)
Definition cov (cols : matrix) : matrix :=
  map (fun a => map (fun b => cov2 a b) cols) cols.

Definition dot (a b : list Q) : Q := sum (mul a b).

(** [m[:, idx]]. *)
Fixpoint column (m : matrix) (idx : nat) : result (list Q) :=
  match m with
  | [] => Ok []
  | row :: rest =>
      match nth_error row idx with
      | Some x => tl <- column rest idx ;; Ok (x :: tl)
      | None => Raise IndexError
      end
  end.

(** [a @ b.T]: entry [(i, j)] is the product of row [i] of [a] and row
    [j] of [b]. *)
Definition matmul_T (a b : matrix) : matrix :=
  map (fun ra => map (fun rb => dot ra rb) b) a.

(** [a @ np.diag(d)]: column [j] of [a] scaled by [d[j]]. *)
Definition matmul_diag (a : matrix) (d : list Q) : matrix :=
  map (fun ra => mul ra d) a.

(** [v + m]: the vector added to every row. *)
Definition add_rows (v : list Q) (m : matrix) : matrix :=
  map (fun row => add v row) m.

End Np.

(** ** Data model *)

(** A position as received: [{product, quantity, lotSize, currentPrice,
    position}], each key possibly absent. *)
Record Position : Type := mkPosition {
  product : option string;
  quantity : option Q;
  lotSize : option Q;
  currentPrice : option Q;
  position : option string
}.

(** A position with every key present. *)
Definition full_position (p : string) (q l c : Q) (side : string) : Position :=
  mkPosition (Some p) (Some q) (Some l) (Some c) (Some side).

(** [returns]: instrument code to its chronological return series. *)
Definition Returns : Type := list (string * list Q).

(** [current_prices]: instrument code to price. *)
Definition Prices : Type := list (string * Q).

(** [{"var95": ..., "var99": ...}]; both entries are whole numbers. *)
Record VaRResult : Type := mkVaR {
  var95 : Z;
  var99 : Z
}.

Record StressResult : Type := mkStress {
  scenario : string;
  pnlImpact : Z;
  description : string
}.

(** ** Helper methods of [RiskEngine] *)

(** [abs(pos['quantity'] * pos['lotSize'] * pos['currentPrice'])]. *)
Definition position_value (pos : Position) : result Q :=
  q <- Py.getitem "quantity" (quantity pos) ;;
  l <- Py.getitem "lotSize" (lotSize pos) ;;
  c <- Py.getitem "currentPrice" (currentPrice pos) ;;
  Ok (Qabs (q * l * c)).

Fixpoint portfolio_value_loop (positions : list Position) (total_value : Q)
  : result Q :=
  match positions with
  | [] => Ok total_value
  | pos :: rest =>
      v <- position_value pos ;;
      portfolio_value_loop rest (total_value + v)
  end.

Definition _calculate_portfolio_value (positions : list Position) : result Q :=
  portfolio_value_loop positions 0.

(** [min(len(r) for r in returns.values())] for a non-empty [returns]. *)
Definition min_length (returns : Returns) : nat :=
  match Py.dict_values returns with
  | [] => O
  | r :: rest => Py.min_len r rest
  end.

(** The [for pos in positions] loop of [_calculate_portfolio_returns]. *)
Fixpoint portfolio_returns_loop (returns : Returns) (n : nat) (total_value : Q)
  (positions : list Position) (portfolio_returns : list Q) : result (list Q) :=
  match positions with
  | [] => Ok portfolio_returns
  | pos :: rest =>
      p <- Py.getitem "product" (product pos) ;;
      match Py.dict_get returns p with
      | Some series =>
          v <- position_value pos ;;
          let weight := v / total_value in
          let position_returns := firstn n series in
          side <- Py.getitem "position" (position pos) ;;
          let position_returns :=
            if String.eqb side "Short" then Np.neg position_returns
            else position_returns in
          portfolio_returns_loop returns n total_value rest
            (Np.add portfolio_returns (Np.scale weight position_returns))
      | None =>
          portfolio_returns_loop returns n total_value rest portfolio_returns
      end
  end.

Definition _calculate_portfolio_returns (positions : list Position)
  (returns : Returns) : result (list Q) :=
  match returns with
  | [] => Ok []
  | _ =>
      let n := min_length returns in
      if (n =? 0)%nat then Ok []
      else
        let portfolio_returns := Np.zeros n in
        total_value <- _calculate_portfolio_value positions ;;
        if Qeq_bool total_value 0 then Ok portfolio_returns
        else portfolio_returns_loop returns n total_value positions
               portfolio_returns
  end.

(** [_historical_var]; its [confidence_levels] argument is never read. *)
Definition _historical_var (returns : list Q) (portfolio_value : Q)
  : result VaRResult :=
  if (length returns =? 0)%nat then Ok (mkVaR 0 0)
  else
    let sorted_returns := Np.sort returns in
    let var_95_index :=
      Py.int (inject_Z (Z.of_nat (length sorted_returns)) * 0.05) in
    let var_99_index :=
      Py.int (inject_Z (Z.of_nat (length sorted_returns)) * 0.01) in
    r95 <- Py.index sorted_returns var_95_index ;;
    let var_95 := Qabs (r95 * portfolio_value) in
    r99 <- Py.index sorted_returns var_99_index ;;
    let var_99 := Qabs (r99 * portfolio_value) in
    Ok (mkVaR (Np.round var_95) (Np.round var_99)).

(** The [for pos in positions] loop of [_aggregate_simulated_returns]. *)
Fixpoint aggregate_loop (products : list string) (simulated_returns : Np.matrix)
  (total_value : Q) (positions : list Position) (portfolio_returns : list Q)
  : result (list Q) :=
  match positions with
  | [] => Ok portfolio_returns
  | pos :: rest =>
      p <- Py.getitem "product" (product pos) ;;
      match Py.list_index products p with
      | Some idx =>
          v <- position_value pos ;;
          let weight := v / total_value in
          side <- Py.getitem "position" (position pos) ;;
          col <- Np.column simulated_returns idx ;;
          if String.eqb side "Short" then
            aggregate_loop products simulated_returns total_value rest
              (Np.sub portfolio_returns (Np.scale weight col))
          else
            aggregate_loop products simulated_returns total_value rest
              (Np.add portfolio_returns (Np.scale weight col))
      | None =>
          aggregate_loop products simulated_returns total_value rest
            portfolio_returns
      end
  end.

Definition _aggregate_simulated_returns (positions : list Position)
  (products : list string) (simulated_returns : Np.matrix) : result (list Q) :=
  let portfolio_returns := Np.zeros (length simulated_returns) in
  total_value <- _calculate_portfolio_value positions ;;
  if Qeq_bool total_value 0 then Ok portfolio_returns
  else aggregate_loop products simulated_returns total_value positions
         portfolio_returns.

(** The [for pos in positions] loop of [_calculate_stress_impact]. *)
Fixpoint stress_loop (current_prices : Prices) (shock_percentage : Q)
  (positions : list Position) (total_impact : Q) : result Q :=
  match positions with
  | [] => Ok total_impact
  | pos :: rest =>
      p <- Py.getitem "product" (product pos) ;;
      match Py.dict_get current_prices p with
      | Some current_price =>
          let shocked_price := current_price * (1 + shock_percentage) in
          let price_change := shocked_price - current_price in
          side <- Py.getitem "position" (position pos) ;;
          let multiplier := if String.eqb side "Long" then 1 else - (1) in
          q <- Py.getitem "quantity" (quantity pos) ;;
          l <- Py.getitem "lotSize" (lotSize pos) ;;
          let impact := price_change * q * l * multiplier in
          stress_loop current_prices shock_percentage rest
            (total_impact + impact)
      | None =>
          stress_loop current_prices shock_percentage rest total_impact
      end
  end.

Definition _calculate_stress_impact (positions : list Position)
  (current_prices : Prices) (shock_percentage : Q) : result Q :=
  stress_loop current_prices shock_percentage positions 0.

Definition run_stress_tests (positions : list Position)
  (current_prices : Prices) : result (list StressResult) :=
  shock_10_down <- _calculate_stress_impact positions current_prices (- 0.10) ;;
  let r1 := mkStress "-10% Shock" (Np.round shock_10_down)
              "10% decline in all oil and fuel prices" in
  shock_10_up <- _calculate_stress_impact positions current_prices 0.10 ;;
  let r2 := mkStress "+10% Shock" (Np.round shock_10_up)
              "10% increase in all oil and fuel prices" in
  historical_worst <-
    _calculate_stress_impact positions current_prices (- 0.15) ;;
  let r3 := mkStress "Historical Worst" (Np.round historical_worst)
              "Repeat of historical worst daily oil price decline" in
  Ok [r1; r2; r3].

(** ** External numerical libraries *)

(** The innovation distribution handed to [arch_model(..., dist=...)]. *)
Inductive Dist : Type := StudentT | Normal.

(** What the engine reads off a fitted model: the one-step variance
    forecast [forecast.variance.values[-1, 0]] and the parameter
    [res.params['nu']] when the fit has one. *)
Record ArchResult : Type := mkArch {
  forecast_variance : Q;
  params_nu : option Q
}.

Class NumLib : Type := {
  (** [np.sqrt] *)
  np_sqrt : Q -> Q;
  (** [stats.norm.ppf(p)] and [stats.t.ppf(p, nu)] *)
  norm_ppf : Q -> Q;
  t_ppf : Q -> Q -> Q;
  (** whether [from arch import arch_model] succeeded *)
  ARCH_AVAILABLE : bool;
  (** [arch_model(series, vol='GARCH', p=1, q=1, dist=d).fit(...)]
      followed by [forecast(horizon=1)]; may raise *)
  arch_fit : Dist -> list Q -> result ArchResult;
  (** [np.linalg.cholesky]; raises [LinAlgError] when the matrix is not
      positive definite *)
  cholesky : Np.matrix -> result Np.matrix;
  (** [np.linalg.eig]: eigenvalues and eigenvectors *)
  eig : Np.matrix -> result (list Q * Np.matrix);
  (** the state of the process-wide generator behind [np.random] *)
  rng_state : Type;
  (** [np.random.seed(s)]: the state it installs *)
  random_seed : Z -> rng_state;
  (** [np.random.normal(loc, scale, size)] *)
  random_normal : Q -> Q -> nat -> rng_state -> list Q * rng_state;
  (** [np.random.randn(rows, cols)] *)
  random_randn : nat -> nat -> rng_state -> Np.matrix * rng_state
}.

(** ** The engine *)

Record RiskEngine : Type := mkEngine { seed : Z }.

(** Local variables of [calculate_garch_var] that its handler reads. *)
Record garch_locals : Type := mkGarchLocals {
  g_portfolio_value : option Q;
  g_portfolio_returns : option (list Q)
}.

(** Local variable of [calculate_monte_carlo_var] that its handler reads. *)
Record mc_locals : Type := mkMcLocals {
  m_portfolio_value : option Q
}.

Section Engine.

Context {L : NumLib}.

(** The body of [RiskEngine.__init__] for a seed that [np.random.seed]
    accepts: seeds the process-wide generator and records the seed.
    [construct], below, is the constructor call for any seed. *)
Definition __init__ (s : Z) (g : rng_state) : RiskEngine * rng_state :=
  (mkEngine s, random_seed s).

Definition _simplified_garch (returns : list Q) (portfolio_value : Q) : Q * Q :=
  let lambda_param := 0.94 in
  let squared_returns := map (fun r => r ^ 2) returns in
  let weights :=
    map (fun i => (1 - lambda_param) * lambda_param ^ Z.of_nat i)
        (seq 0 (length squared_returns)) in
  let weights := map (fun w => w / Np.sum weights) weights in
  let variance := Np.sum (Np.mul weights (rev squared_returns)) in
  let volatility := np_sqrt variance in
  let var_95 := Qabs (norm_ppf 0.05 * volatility * portfolio_value) in
  let var_99 := Qabs (norm_ppf 0.01 * volatility * portfolio_value) in
  (var_95, var_99).

(** The inner [try] of the arch branch: a Student-t fit. *)
Definition garch_fit_t (returns_series : list Q) (portfolio_value : Q)
  : result (Q * Q) :=
  res <- arch_fit StudentT returns_series ;;
  let predicted_variance := forecast_variance res in
  let predicted_vol := np_sqrt predicted_variance / 100 in
  match params_nu res with
  | Some nu =>
      Ok (Qabs (t_ppf 0.05 nu * predicted_vol * portfolio_value),
          Qabs (t_ppf 0.01 nu * predicted_vol * portfolio_value))
  | None =>
      Ok (Qabs (norm_ppf 0.05 * predicted_vol * portfolio_value),
          Qabs (norm_ppf 0.01 * predicted_vol * portfolio_value))
  end.

(** Its handler: a Normal fit. *)
Definition garch_fit_normal (returns_series : list Q) (portfolio_value : Q)
  : result (Q * Q) :=
  res <- arch_fit Normal returns_series ;;
  let predicted_variance := forecast_variance res in
  let predicted_vol := np_sqrt predicted_variance / 100 in
  Ok (Qabs (norm_ppf 0.05 * predicted_vol * portfolio_value),
      Qabs (norm_ppf 0.01 * predicted_vol * portfolio_value)).

(** The statements of [calculate_garch_var] after the short-series test. *)
Definition garch_model (portfolio_returns : list Q) (portfolio_value : Q)
  : result VaRResult :=
  v <- (if ARCH_AVAILABLE then
          let returns_series := map (fun r => r * 100) portfolio_returns in
          match garch_fit_t returns_series portfolio_value with
          | Ok v => Ok v
          | Raise _ => garch_fit_normal returns_series portfolio_value
          end
        else Ok (_simplified_garch portfolio_returns portfolio_value)) ;;
  Ok (mkVaR (Np.round (fst v)) (Np.round (snd v))).

(** The [try] body of [calculate_garch_var], with the locals bound when
    it returned or raised. *)
Definition garch_try (positions : list Position) (returns : Returns)
  : garch_locals * result VaRResult :=
  match _calculate_portfolio_value positions with
  | Raise e => (mkGarchLocals None None, Raise e)
  | Ok portfolio_value =>
      match _calculate_portfolio_returns positions returns with
      | Raise e => (mkGarchLocals (Some portfolio_value) None, Raise e)
      | Ok portfolio_returns =>
          (mkGarchLocals (Some portfolio_value) (Some portfolio_returns),
           if (length portfolio_returns <? 100)%nat then
             _historical_var portfolio_returns portfolio_value
           else garch_model portfolio_returns portfolio_value)
      end
  end.

(** The [except Exception] handler of [calculate_garch_var]. *)
Definition garch_except (locals : garch_locals) : result VaRResult :=
  portfolio_returns <-
    Py.local "portfolio_returns" (g_portfolio_returns locals) ;;
  portfolio_value <- Py.local "portfolio_value" (g_portfolio_value locals) ;;
  _historical_var portfolio_returns portfolio_value.

Definition calculate_garch_var (self : RiskEngine) (positions : list Position)
  (returns : Returns) : result VaRResult :=
  let (locals, r) := garch_try positions returns in
  match r with
  | Ok v => Ok v
  | Raise _ => garch_except locals
  end.

(** [returns[p][:n] for p in products]. *)
Fixpoint returns_columns (returns : Returns) (n : nat) (products : list string)
  : result Np.matrix :=
  match products with
  | [] => Ok []
  | p :: rest =>
      match Py.dict_get returns p with
      | Some series =>
          cols <- returns_columns returns n rest ;;
          Ok (firstn n series :: cols)
      | None => Raise (KeyError p)
      end
  end.

(** The [try] body of the multi-instrument branch. *)
Definition simulate_cholesky (positions : list Position)
  (products : list string) (mean_returns : list Q) (cov_matrix : Np.matrix)
  (simulations : nat) (g : rng_state) : result (list Q) * rng_state :=
  match cholesky cov_matrix with
  | Raise e => (Raise e, g)
  | Ok l =>
      let (random_normals, g') :=
        random_randn simulations (length products) g in
      let correlated_returns :=
        Np.add_rows mean_returns (Np.matmul_T random_normals l) in
      (_aggregate_simulated_returns positions products correlated_returns, g')
  end.

(** Its [except np.linalg.LinAlgError] handler. *)
Definition simulate_eig (positions : list Position) (products : list string)
  (mean_returns : list Q) (cov_matrix : Np.matrix) (simulations : nat)
  (g : rng_state) : result (list Q) * rng_state :=
  match eig cov_matrix with
  | Raise e => (Raise e, g)
  | Ok (eigenvalues, eigenvectors) =>
      let eigenvalues := map (fun x => Qmax x 0) eigenvalues in
      let l := Np.matmul_diag eigenvectors (map np_sqrt eigenvalues) in
      let (random_normals, g') :=
        random_randn simulations (length products) g in
      let correlated_returns :=
        Np.add_rows mean_returns (Np.matmul_T random_normals l) in
      (_aggregate_simulated_returns positions products correlated_returns, g')
  end.

(** The [if len(products) == 1: ... else: ...] statement of
    [calculate_monte_carlo_var]: the value of [portfolio_sim_returns]. *)
Definition simulate_portfolio_returns (positions : list Position)
  (products : list string) (mean_returns : list Q) (cov_matrix : Np.matrix)
  (simulations : nat) (g : rng_state) : result (list Q) * rng_state :=
  if (length products =? 1)%nat then
    let std_dev := np_sqrt (nth 0 (nth 0 cov_matrix []) 0) in
    match Py.index mean_returns 0 with
    | Raise e => (Raise e, g)
    | Ok m =>
        let (simulated_returns, g') :=
          random_normal m std_dev simulations g in
        (Ok simulated_returns, g')
    end
  else
    let (r, g') :=
      simulate_cholesky positions products mean_returns cov_matrix
        simulations g in
    match r with
    | Raise LinAlgError =>
        simulate_eig positions products mean_returns cov_matrix
          simulations g'
    | _ => (r, g')
    end.

(** The last statements of the [try] body: P&L, percentiles, rounding. *)
Definition var_of_simulation (portfolio_sim_returns : list Q)
  (portfolio_value : Q) : VaRResult :=
  let portfolio_pnl :=
    map (fun x => x * portfolio_value) portfolio_sim_returns in
  let sorted_pnl := Np.sort portfolio_pnl in
  let var_95 := Qabs (Np.percentile sorted_pnl 5) in
  let var_99 := Qabs (Np.percentile sorted_pnl 1) in
  mkVaR (Np.round var_95) (Np.round var_99).

(** The [try] body of [calculate_monte_carlo_var]. *)
Definition monte_carlo_try (positions : list Position) (returns : Returns)
  (simulations : nat) (g : rng_state)
  : mc_locals * result VaRResult * rng_state :=
  match _calculate_portfolio_value positions with
  | Raise e => (mkMcLocals None, Raise e, g)
  | Ok portfolio_value =>
      let locals := mkMcLocals (Some portfolio_value) in
      let products := Py.dict_keys returns in
      if (length products =? 0)%nat then (locals, Ok (mkVaR 0 0), g)
      else
        match returns_columns returns (min_length returns) products with
        | Raise e => (locals, Raise e, g)
        | Ok columns =>
            let mean_returns := map Np.mean columns in
            let cov_matrix := Np.cov columns in
            let (r, g') :=
              simulate_portfolio_returns positions products mean_returns
                cov_matrix simulations g in
            match r with
            | Raise e => (locals, Raise e, g')
            | Ok portfolio_sim_returns =>
                (locals,
                 Ok (var_of_simulation portfolio_sim_returns portfolio_value),
                 g')
            end
        end
  end.

(** The [except Exception] handler of [calculate_monte_carlo_var]. *)
Definition monte_carlo_except (locals : mc_locals) (positions : list Position)
  (returns : Returns) : result VaRResult :=
  portfolio_returns <- _calculate_portfolio_returns positions returns ;;
  portfolio_value <- Py.local "portfolio_value" (m_portfolio_value locals) ;;
  _historical_var portfolio_returns portfolio_value.

Definition calculate_monte_carlo_var (self : RiskEngine)
  (positions : list Position) (returns : Returns) (simulations : nat)
  (g : rng_state) : result VaRResult * rng_state :=
  let '(locals, r, g') := monte_carlo_try positions returns simulations g in
  match r with
  | Ok v => (Ok v, g')
  | Raise _ => (monte_carlo_except locals positions returns, g')
  end.

End Engine.

(** ** Callers *)

(** One request served by an engine, as [main] dispatches them. *)
Inductive Call : Type :=
| GarchCall (positions : list Position) (returns : Returns)
| MonteCarloCall (positions : list Position) (returns : Returns)
    (simulations : nat)
| StressCall (positions : list Position) (current_prices : Prices).

Inductive Output : Type :=
| VaROutput (r : result VaRResult)
| StressOutput (r : result (list StressResult)).

Section Callers.

Context {L : NumLib}.

Definition call (self : RiskEngine) (c : Call) (g : rng_state)
  : Output * rng_state :=
  match c with
  | GarchCall positions returns =>
      (VaROutput (calculate_garch_var self positions returns), g)
  | MonteCarloCall positions returns simulations =>
      let (r, g') :=
        calculate_monte_carlo_var self positions returns simulations g in
      (VaROutput r, g')
  | StressCall positions current_prices =>
      (StressOutput (run_stress_tests positions current_prices), g)
  end.

(** A sequence of calls on one engine; the outputs in order and the
    generator state left behind. *)
Fixpoint calls (self : RiskEngine) (cs : list Call) (g : rng_state)
  : list Output * rng_state :=
  match cs with
  | [] => ([], g)
  | c :: rest =>
      let (o, g') := call self c g in
      let (os, g'') := calls self rest g' in
      (o :: os, g'')
  end.

(** A run: an engine is constructed with seed [s] in a process whose
    generator is in state [g0], then serves [cs]. *)
Definition run (s : Z) (cs : list Call) (g0 : rng_state) : list Output :=
  let (self, g) := __init__ s g0 in
  fst (calls self cs g).

End Callers.

(** ** Well-formed positions *)

(** A position record with every field present, as the data model of
    the engine describes it. *)
Record Holding : Type := mkHolding {
  h_product : string;
  h_quantity : Q;
  h_lotSize : Q;
  h_currentPrice : Q;
  h_side : string
}.

Definition json (h : Holding) : Position :=
  full_position (h_product h) (h_quantity h) (h_lotSize h)
    (h_currentPrice h) (h_side h).

(** Exposure value of a holding. *)
Definition exposure (h : Holding) : Q :=
  Qabs (h_quantity h * h_lotSize h * h_currentPrice h).

(** Sum of a list of rationals, from the right. *)
Fixpoint total (l : list Q) : Q :=
  match l with
  | [] => 0
  | x :: rest => x + total rest
  end.

(** ** Formulas of the specification *)

(** Stress impact of one holding under shock fraction [s]:
    [(currentPrice * s) * quantity * lotSize * (+1 if Long else -1)],
    zero when the product has no current price. *)
Definition stress_term (current_prices : Prices) (s : Q) (h : Holding) : Q :=
  match Py.dict_get current_prices (h_product h) with
  | Some price =>
      (price * s) * h_quantity h * h_lotSize h
      * (if String.eqb (h_side h) "Long" then 1 else - (1))
  | None => 0
  end.

Definition stress_total (current_prices : Prices) (s : Q) (hs : list Holding)
  : Q :=
  total (map (stress_term current_prices s) hs).

(** EWMA weight of lag [i] among [n] observations, decay 0.94:
    [(1 - 0.94) * 0.94^i], normalised by the sum of these over all lags. *)
Definition ewma_raw_weight (i : nat) : Q := (1 - 0.94) * 0.94 ^ Z.of_nat i.

Definition ewma_weight (n i : nat) : Q :=
  ewma_raw_weight i / total (map ewma_raw_weight (seq 0 n)).

(** EWMA variance: lag [i] is the observation [i] places before the most
    recent one. *)
Definition ewma_variance (r : list Q) : Q :=
  let n := length r in
  total (map (fun i => ewma_weight n i * (nth (n - 1 - i) r 0) ^ 2) (seq 0 n)).

(** The aggregation rule of the portfolio aggregator on one simulated
    draw [x] of a single instrument [p]: every holding of [p] adds
    [weight * sign * x]. *)
Definition aggregate_term (p : string) (total_value x : Q) (h : Holding) : Q :=
  if String.eqb (h_product h) p then
    exposure h / total_value
    * (if String.eqb (h_side h) "Short" then - (1) else 1) * x
  else 0.

Definition aggregate_rule (p : string) (hs : list Holding) (x : Q) : Q :=
  let total_value := total (map exposure hs) in
  if Qeq_bool total_value 0 then 0
  else total (map (aggregate_term p total_value x) hs).

(** ** A small instance of the numerical interface

    Used to evaluate the engine on concrete inputs.  Square roots are
    truncated to six decimals, the generator is a linear congruential
    one, and the decompositions are those of diagonal matrices. *)

Module Ref.

Definition sqrt (x : Q) : Q :=
  Z.sqrt (Qfloor (x * 1000000000000)) # 1000000.

Definition normal_quantile (p : Q) : Q :=
  if Qeq_bool p 0.05 then - 1.644854
  else if Qeq_bool p 0.01 then - 2.326348
  else 0.

(** Quantiles of Student's t with five degrees of freedom, whatever
    [nu]. *)
Definition student_quantile (p nu : Q) : Q :=
  if Qeq_bool p 0.05 then - 2.015048
  else if Qeq_bool p 0.01 then - 3.364930
  else 0.

Definition is_diagonal (m : Np.matrix) : bool :=
  forallb (fun ir =>
    forallb (fun jx =>
      orb (Nat.eqb (fst ir) (fst jx)) (Qeq_bool (snd jx) 0))
      (combine (seq 0 (length (snd ir))) (snd ir)))
    (combine (seq 0 (length m)) m).

Definition diagonal (m : Np.matrix) : list Q :=
  map (fun ir => nth (fst ir) (snd ir) 0) (combine (seq 0 (length m)) m).

Definition diag_matrix (d : list Q) : Np.matrix :=
  map (fun i => map (fun j => if Nat.eqb i j then nth i d 0 else 0)
                    (seq 0 (length d)))
      (seq 0 (length d)).

Definition chol (m : Np.matrix) : result Np.matrix :=
  if is_diagonal m && forallb (fun x => negb (Qle_bool x 0)) (diagonal m)
  then Ok (diag_matrix (map sqrt (diagonal m)))
  else Raise LinAlgError.

Definition eigen (m : Np.matrix) : result (list Q * Np.matrix) :=
  if is_diagonal m
  then Ok (diagonal m, diag_matrix (map (fun _ => 1) (diagonal m)))
  else Raise LinAlgError.

Definition next (g : Z) : Z := ((g * 1103515245 + 12345) mod 2147483648)%Z.

(** A draw in [-1, 1]. *)
Definition unit_draw (g : Z) : Q := (g - 1073741824 # 1073741824).

Fixpoint draws (n : nat) (g : Z) : list Q * Z :=
  match n with
  | O => ([], g)
  | S k =>
      let g1 := next g in
      let (rest, g2) := draws k g1 in
      (unit_draw g1 :: rest, g2)
  end.

Fixpoint rows (n cols : nat) (g : Z) : Np.matrix * Z :=
  match n with
  | O => ([], g)
  | S k =>
      let (row, g1) := draws cols g in
      let (rest, g2) := rows k cols g1 in
      (row :: rest, g2)
  end.

Definition normal (loc scale : Q) (size : nat) (g : Z) : list Q * Z :=
  let (u, g') := draws size g in
  (map (fun x => Qred (loc + scale * x)) u, g').

(** The instance, for a given availability of arch and a given fit. *)
Definition lib (arch_available : bool)
  (fit : Dist -> list Q -> result ArchResult) : NumLib :=
  {| np_sqrt := sqrt;
     norm_ppf := normal_quantile;
     t_ppf := student_quantile;
     ARCH_AVAILABLE := arch_available;
     arch_fit := fit;
     cholesky := chol;
     eig := eigen;
     rng_state := Z;
     random_seed := fun s => s;
     random_normal := normal;
     random_randn := rows |}.

(** A fit that always converges, to a variance forecast of 4 (in
    squared percent) and, for Student-t innovations, five degrees of
    freedom. *)
Definition steady_fit (d : Dist) (series : list Q) : result ArchResult :=
  Ok (mkArch 4 (match d with StudentT => Some 5 | Normal => None end)).

(** A fit that never converges. *)
Definition failing_fit (d : Dist) (series : list Q) : result ArchResult :=
  Raise (LibraryError "optimizer did not converge").

(** Without arch. *)
Definition ewma_lib : NumLib := lib false failing_fit.

(** With arch, every fit failing. *)
Definition arch_lib : NumLib := lib true failing_fit.

(** With arch, every fit converging. *)
Definition fitted_lib : NumLib := lib true steady_fit.

End Ref.

(** ** Sample requests *)

Module Sample.

Definition book : list Position :=
  [full_position "BRENT" 1000 1 85 "Long"].

Definition short_book : list Position :=
  [full_position "BRENT" 1000 1 85 "Short"].

(** A book with no exposure. *)
Definition flat_book : list Position :=
  [full_position "BRENT" 0 1 85 "Long"].

(** A position whose own price is zero while the market quotes 85. *)
Definition unpriced_book : list Position :=
  [full_position "BRENT" 1000 1 0 "Long"].

(** A position object without the key [quantity]. *)
Definition broken_book : list Position :=
  [mkPosition (Some "BRENT") None (Some 1) (Some 85) (Some "Long")].

Definition unit_book : list Position :=
  [full_position "BRENT" 1000 1 1 "Long"].

Definition prices : Prices := [("BRENT", 85)].

Definition three : list Q := [0.02; - 0.03; 0.01].

Definition returns3 : Returns := [("BRENT", three)].

Definition returns_two : Returns :=
  [("BRENT", three); ("WTI", [0.01; 0.02; - 0.01])].

(** Twenty observations, all gains. *)
Definition rising20 : list Q :=
  [0.01; 0.02; 0.03; 0.04; 0.05; 0.06; 0.07; 0.08; 0.09; 0.10;
   0.11; 0.12; 0.13; 0.14; 0.15; 0.16; 0.17; 0.18; 0.19; 0.20].

Definition returns_rising : Returns := [("BRENT", rising20)].

(** A hundred observations. *)
Definition returns100 : Returns := [("BRENT", repeat 0.01 100)].

Definition weighted (positions : list Position) (returns : Returns) : list Q :=
  match _calculate_portfolio_returns positions returns with
  | Ok r => r
  | Raise _ => []
  end.

Definition series3 : list Q := Eval vm_compute in weighted book returns3.

Definition series_two : list Q := Eval vm_compute in weighted book returns_two.

Definition series100 : list Q := Eval vm_compute in weighted book returns100.

End Sample.

(** ** Further formulas and predicates *)

(** Sign of a holding in the two aggregations: [-1] for [Short], [+1]
    otherwise. *)
Definition aggregation_sign (h : Holding) : Q :=
  if String.eqb (h_side h) "Short" then - (1) else 1.

(** What a holding adds to entry [j] of the weighted return series. *)
Definition weighted_term (returns : Returns) (total_value : Q) (j : nat)
  (h : Holding) : Q :=
  match Py.dict_get returns (h_product h) with
  | Some series =>
      exposure h / total_value * aggregation_sign h * nth j series 0
  | None => 0
  end.

(** What a holding adds to the aggregate of one simulated row. *)
Definition simulated_term (products : list string) (total_value : Q)
  (row : list Q) (h : Holding) : Q :=
  match Py.list_index products (h_product h) with
  | Some idx => exposure h / total_value * aggregation_sign h * nth idx row 0
  | None => 0
  end.

(** [returns_matrix] of [calculate_monte_carlo_var]: row [j] holds the
    return of day [j] of every instrument, in the order of the keys. *)
Definition returns_matrix (returns : Returns) : Np.matrix :=
  map (fun j => map (fun series => nth j series 0) (Py.dict_values returns))
      (seq 0 (min_length returns)).

(** The keys that [_calculate_portfolio_value] subscripts. *)
Definition has_value_keys (pos : Position) : Prop :=
  quantity pos <> None /\ lotSize pos <> None /\ currentPrice pos <> None.

(** The keys that [_calculate_stress_impact] subscripts: [product]
    always, and [position], [quantity], [lotSize] when the product has a
    current price. *)
Definition stress_readable (current_prices : Prices) (pos : Position) : Prop :=
  match product pos with
  | None => False
  | Some p =>
      match Py.dict_get current_prices p with
      | None => True
      | Some _ =>
          position pos <> None /\ quantity pos <> None /\ lotSize pos <> None
      end
  end.

(** The side of a holding, as each evaluator reads it. *)
Definition with_side (h : Holding) (side : string) : Holding :=
  mkHolding (h_product h) (h_quantity h) (h_lotSize h) (h_currentPrice h) side.

Definition read_by_stress (h : Holding) : Holding :=
  with_side h (if String.eqb (h_side h) "Long" then "Long" else "Short").

Definition read_by_aggregator (h : Holding) : Holding :=
  with_side h (if String.eqb (h_side h) "Short" then "Short" else "Long").

(** ** The entry point *)

(** The request object read from standard input; a key that is absent
    is [None]. *)
Record InputData : Type := mkInput {
  in_method : option string;
  in_positions : option (list Position);
  in_returns : option Returns;
  in_seed : option Z;
  in_simulations : option nat;
  in_current_prices : option Prices
}.

(** The JSON object that [main] prints. *)
Inductive Printed : Type :=
| PrintedVaR (r : VaRResult)
| PrintedStress (rs : list StressResult)
| PrintedUnknownMethod (method : string)
| PrintedError (e : exn).

(** The default of [simulations]: 100000. *)
Definition default_simulations : nat := 1000 * 100.

(** [d.get(key, default)]. *)
Definition get_default {A : Type} (field : option A) (default : A) : A :=
  match field with
  | Some a => a
  | None => default
  end.

(** The samples on which the Monte Carlo statistics are numbers: no
    instrument at all, or at least two observations of every instrument
    and at least one draw.  Below that [np.mean], [np.cov] or
    [np.percentile] yield NaN. *)
Definition regular_sample (returns : Returns) (simulations : nat) : Prop :=
  returns = [] \/ ((2 <= min_length returns)%nat /\ (0 < simulations)%nat).

(** The seeds that [np.random.seed] accepts: [0 .. 2^32 - 1]. *)
Definition seed_accepted (s : Z) : bool :=
  ((0 <=? s) && (s <? 4294967296))%Z.

Section Main.

Context {L : NumLib}.

(** [RiskEngine(seed=s)]: [np.random.seed] raises [ValueError] for a
    seed outside [0 .. 2^32 - 1], before it touches the generator. *)
Definition construct (s : Z) (g : rng_state) : result RiskEngine * rng_state :=
  if seed_accepted s then
    let (engine, g') := __init__ s g in (Ok engine, g')
  else
    (Raise (LibraryError "ValueError: Seed must be between 0 and 2**32 - 1"),
     g).

(** [main]: the printed object, the exit status and the generator state.
    [stdin] is [None] when the input is not a JSON document. *)
Definition main (stdin : option InputData) (g : rng_state)
  : Printed * Z * rng_state :=
  match stdin with
  | None => (PrintedError (LibraryError "JSONDecodeError"), 1%Z, g)
  | Some input_data =>
      let method := get_default (in_method input_data) "garch" in
      let positions := get_default (in_positions input_data) [] in
      let returns := get_default (in_returns input_data) [] in
      let s := get_default (in_seed input_data) 42%Z in
      let simulations :=
        get_default (in_simulations input_data) default_simulations in
      let (constructed, g1) := construct s g in
      match constructed with
      | Raise e => (PrintedError e, 1%Z, g1)
      | Ok engine =>
          if String.eqb method "garch" then
            match calculate_garch_var engine positions returns with
            | Ok r => (PrintedVaR r, 0%Z, g1)
            | Raise e => (PrintedError e, 1%Z, g1)
            end
          else if String.eqb method "montecarlo" then
            let (res, g2) :=
              calculate_monte_carlo_var engine positions returns simulations
                g1 in
            match res with
            | Ok r => (PrintedVaR r, 0%Z, g2)
            | Raise e => (PrintedError e, 1%Z, g2)
            end
          else if String.eqb method "stress" then
            let current_prices :=
              get_default (in_current_prices input_data) [] in
            match run_stress_tests positions current_prices with
            | Ok rs => (PrintedStress rs, 0%Z, g1)
            | Raise e => (PrintedError e, 1%Z, g1)
            end
          else (PrintedUnknownMethod method, 0%Z, g1)
      end
  end.

End Main.

(** ** The market data generator

    [scripts/generate_market_data.py], method [generate_price_series]. *)

Module Generator.

Record ProductConfig : Type := mkConfig {
  base_price : Q;
  volatility : Q;
  trend : Q;
  name : string
}.

(** [self.products]. *)
Definition products : list (string * ProductConfig) :=
  [("BRENT", mkConfig 85.00 0.025 0.0001 "Brent Crude Oil");
   ("380CST", mkConfig 450.00 0.020 0.0002 "Fuel Oil 380cst");
   ("MF05", mkConfig 520.00 0.022 0.0001 "Marine Fuel 0.5%");
   ("GASOIL", mkConfig 680.00 0.023 0.00015 "Gasoil");
   ("WTI", mkConfig 80.00 0.025 0.0001 "WTI Crude Oil");
   ("JET", mkConfig 750.00 0.024 0.0002 "Jet Fuel")].

(** The scalar draws of [np.random]: [normal(loc, scale)] and
    [random()]. *)
Class ScalarDraws (L : NumLib) : Type := {
  random_normal1 : Q -> Q -> rng_state -> Q * rng_state;
  random_random : rng_state -> Q * rng_state
}.

Section Series.

Context {L : NumLib} {D : ScalarDraws L}.

(** The [for i in range(1, days)] loop, from the previous price on:
    the prices and returns of the remaining days. *)
Fixpoint price_loop (config : ProductConfig) (steps : nat) (previous : Q)
  (g : rng_state) : list Q * list Q * rng_state :=
  match steps with
  | O => ([], [], g)
  | S k =>
      let mean_reversion :=
        0.01 * (base_price config - previous) / base_price config in
      let (random_shock, g1) := random_normal1 0 (volatility config) g in
      let (u, g2) := random_random g1 in
      let random_shock :=
        if negb (Qle_bool 0.05 u) then random_shock * 2.5 else random_shock in
      let daily_return := trend config + mean_reversion + random_shock in
      let price := previous * (1 + daily_return) in
      let price := Qmax price (base_price config * 0.3) in
      let '(prices, returns, g3) := price_loop config k price g2 in
      (price :: prices, daily_return :: returns, g3)
  end.

Definition generate_price_series (product_code : string) (days : nat)
  (g : rng_state) : result (list Q * list Q) * rng_state :=
  match Py.dict_get products product_code with
  | None => (Raise (KeyError product_code), g)
  | Some config =>
      match days with
      | O => (Raise IndexError, g)
      | S k =>
          let '(prices, returns, g') :=
            price_loop config k (base_price config) g in
          (Ok (base_price config :: prices, 0 :: returns), g')
      end
  end.

End Series.

(** Scalar draws for the reference instance without arch. *)
Definition ref_normal1 (loc scale : Q) (g : Z) : Q * Z :=
  let g' := Ref.next g in
  (Qred (loc + scale * Ref.unit_draw g'), g').

Definition ref_random (g : Z) : Q * Z :=
  let g' := Ref.next g in
  (Qred (g' # 2147483648), g').

Definition ref_draws : ScalarDraws Ref.ewma_lib :=
  {| random_normal1 := ref_normal1 : Q -> Q -> @rng_state Ref.ewma_lib -> _;
     random_random := ref_random : @rng_state Ref.ewma_lib -> _ |}.

End Generator.

(** * Verification *)
(** ** Rounding, truncation and sorting *)

Lemma round_comp (x y : Q) : x == y -> Np.round x = Np.round y.
Proof.
  intros H. unfold Np.round.
  rewrite (Qfloor_comp _ _ H).
  assert (E : (x - inject_Z (Qfloor y) ?= 1 # 2) = (y - inject_Z (Qfloor y) ?= 1 # 2)).
  { apply Qcompare_comp; [rewrite H; reflexivity | reflexivity]. }
  rewrite E. reflexivity.
Qed.

Lemma round_cases (x : Q) :
  (Np.round x = Qfloor x /\ x - inject_Z (Qfloor x) <= 1 # 2) \/
  (Np.round x = (Qfloor x + 1)%Z /\ 1 # 2 <= x - inject_Z (Qfloor x)).
Proof.
  unfold Np.round.
  destruct (x - inject_Z (Qfloor x) ?= 1 # 2) eqn:E.
  - apply Qeq_alt in E. destruct (Z.even (Qfloor x)); [left | right]; split; auto; rewrite E; apply Qle_refl.
  - apply Qlt_alt in E. left. split; auto. apply Qlt_le_weak; exact E.
  - apply Qgt_alt in E. right. split; auto. apply Qlt_le_weak; exact E.
Qed.

Lemma round_mono (x y : Q) : x <= y -> (Np.round x <= Np.round y)%Z.
Proof.
  intros H.
  pose proof (Qfloor_resp_le _ _ H) as Hf.
  destruct (Z.eq_dec (Qfloor x) (Qfloor y)) as [E | NE].
  - unfold Np.round. rewrite E.
    generalize (inject_Z (Qfloor y)) (Z.even (Qfloor y)). intros c ev.
    destruct (x - c ?= 1 # 2) eqn:Ex;
      destruct (y - c ?= 1 # 2) eqn:Ey;
      try (destruct ev); try lia;
      repeat match goal with
             | K : (_ ?= _) = Eq |- _ => apply Qeq_alt in K
             | K : (_ ?= _) = Lt |- _ => apply Qlt_alt in K
             | K : (_ ?= _) = Gt |- _ => apply Qgt_alt in K
             end; exfalso; lra.
  - destruct (round_cases x) as [[Rx _] | [Rx _]];
      destruct (round_cases y) as [[Ry _] | [Ry _]]; lia.
Qed.

Lemma round_inject_Z (z : Z) : Np.round (inject_Z z) = z.
Proof.
  unfold Np.round. rewrite Qfloor_Z.
  assert (E : (inject_Z z - inject_Z z ?= 1 # 2) = Lt).
  { apply Qlt_alt. setoid_replace (inject_Z z - inject_Z z) with 0 by ring.
    reflexivity. }
  rewrite E. reflexivity.
Qed.

Lemma round_zero (x : Q) : x == 0 -> Np.round x = 0%Z.
Proof.
  intros H. rewrite (round_comp _ _ H). reflexivity.
Qed.

Lemma round_nonneg (x : Q) : 0 <= x -> (0 <= Np.round x)%Z.
Proof.
  intros H. change 0%Z with (Np.round 0). apply round_mono. exact H.
Qed.

Lemma int_floor_nonneg (x : Q) : 0 <= x -> Py.int x = Qfloor x.
Proof.
  intros H. unfold Py.int. destruct x as [n d]. simpl.
  apply Z.quot_div_nonneg; [| lia].
  unfold Qle in H. simpl in H. lia.
Qed.

Lemma index_95 (n : nat) :
  Py.int (inject_Z (Z.of_nat n) * 0.05) = (Z.of_nat n / 20)%Z.
Proof.
  unfold Py.int. simpl.
  rewrite Z.quot_div_nonneg by lia.
  change 100%Z with (20 * 5)%Z. apply Z.div_mul_cancel_r; lia.
Qed.

Lemma index_99 (n : nat) :
  Py.int (inject_Z (Z.of_nat n) * 0.01) = (Z.of_nat n / 100)%Z.
Proof.
  unfold Py.int. simpl.
  rewrite Z.quot_div_nonneg by lia.
  f_equal. lia.
Qed.

Lemma floor_95 (n : nat) :
  Qfloor (inject_Z (Z.of_nat n) * 0.05) = (Z.of_nat n / 20)%Z.
Proof.
  rewrite <- index_95. symmetry. apply int_floor_nonneg.
  apply Qmult_le_0_compat; [| lra].
  change 0 with (inject_Z 0). rewrite <- Zle_Qle. lia.
Qed.

Lemma floor_99 (n : nat) :
  Qfloor (inject_Z (Z.of_nat n) * 0.01) = (Z.of_nat n / 100)%Z.
Proof.
  rewrite <- index_99. symmetry. apply int_floor_nonneg.
  apply Qmult_le_0_compat; [| lra].
  change 0 with (inject_Z 0). rewrite <- Zle_Qle. lia.
Qed.

Lemma insert_length (x : Q) (l : list Q) : length (Np.insert x l) = S (length l).
Proof.
  induction l as [| y l IH]; simpl; [reflexivity |].
  destruct (Qle_bool x y); simpl; congruence.
Qed.

Lemma sort_length (l : list Q) : length (Np.sort l) = length l.
Proof.
  induction l as [| x l IH]; simpl; [reflexivity |].
  unfold Np.sort in *. simpl. rewrite insert_length. congruence.
Qed.

Lemma insert_perm (x : Q) (l : list Q) : Permutation (x :: l) (Np.insert x l).
Proof.
  induction l as [| y l IH]; simpl; [apply Permutation_refl |].
  destruct (Qle_bool x y); [apply Permutation_refl |].
  eapply perm_trans; [apply perm_swap |]. apply perm_skip. exact IH.
Qed.

Lemma sort_perm (l : list Q) : Permutation l (Np.sort l).
Proof.
  induction l as [| x l IH]; [apply Permutation_refl |].
  change (Np.sort (x :: l)) with (Np.insert x (Np.sort l)).
  eapply perm_trans; [apply perm_skip; exact IH | apply insert_perm].
Qed.

Lemma insert_forall (P : Q -> Prop) (x : Q) (l : list Q) :
  P x -> Forall P l -> Forall P (Np.insert x l).
Proof.
  intros Hx Hl. induction Hl as [| y l Hy Hl IH]; simpl.
  - constructor; [exact Hx | constructor].
  - destruct (Qle_bool x y); repeat constructor; auto.
Qed.

Lemma sort_forall (P : Q -> Prop) (l : list Q) :
  Forall P l -> Forall P (Np.sort l).
Proof.
  intros H. induction H as [| x l Hx Hl IH]; [constructor |].
  change (Np.sort (x :: l)) with (Np.insert x (Np.sort l)).
  apply insert_forall; assumption.
Qed.

Lemma insert_sorted (x : Q) (l : list Q) :
  StronglySorted Qle l -> StronglySorted Qle (Np.insert x l).
Proof.
  intros H. induction H as [| y l Hl IH Hy]; simpl.
  - constructor; constructor.
  - destruct (Qle_bool x y) eqn:E.
    + apply Qle_bool_iff in E. constructor.
      * constructor; assumption.
      * constructor; [exact E |].
        eapply Forall_impl; [| exact Hy]. intros z Hz.
        eapply Qle_trans; eassumption.
    + assert (Hyx : y <= x).
      { destruct (Qlt_le_dec x y) as [Hlt | Hle]; [| exact Hle].
        apply Qlt_le_weak in Hlt. apply Qle_bool_iff in Hlt. congruence. }
      constructor; [exact IH |].
      apply insert_forall; assumption.
Qed.

Lemma sort_sorted (l : list Q) : StronglySorted Qle (Np.sort l).
Proof.
  induction l as [| x l IH]; [constructor |].
  change (Np.sort (x :: l)) with (Np.insert x (Np.sort l)).
  apply insert_sorted. exact IH.
Qed.

Lemma sorted_nth_le (l : list Q) :
  StronglySorted Qle l ->
  forall i j, (i <= j)%nat -> (j < length l)%nat -> nth i l 0 <= nth j l 0.
Proof.
  intros H. induction H as [| x l Hl IH Hx]; intros i j Hij Hj; simpl in Hj.
  - lia.
  - destruct i as [| i]; destruct j as [| j]; simpl; try lia.
    + apply Qle_refl.
    + rewrite Forall_forall in Hx. apply Hx. apply nth_In. lia.
    + apply IH; lia.
Qed.

Lemma index_in_range {A : Type} (a : list A) (i : nat) (d : A) :
  (i < length a)%nat -> Py.index a (Z.of_nat i) = Ok (nth i a d).
Proof.
  intros H. unfold Py.index.
  assert (E : (Z.of_nat i <? 0)%Z = false) by (apply Z.ltb_ge; lia).
  rewrite E, E, Nat2Z.id.
  destruct (nth_error a i) eqn:N.
  - rewrite (nth_error_nth _ _ d N). reflexivity.
  - apply nth_error_None in N. lia.
Qed.

(** ** Historical VaR *)

Lemma historical_var_empty (v : Q) : _historical_var [] v = Ok (mkVaR 0 0).
Proof. reflexivity. Qed.

Lemma historical_var_nonempty (r : list Q) (v : Q) :
  r <> [] ->
  _historical_var r v =
    Ok (mkVaR (Np.round (Qabs (nth (length r / 20) (Np.sort r) 0 * v)))
              (Np.round (Qabs (nth (length r / 100) (Np.sort r) 0 * v)))).
Proof.
  intros Hr. unfold _historical_var.
  assert (Hn : (0 < length r)%nat) by (destruct r; [congruence | simpl; lia]).
  destruct (length r =? 0)%nat eqn:E; [apply Nat.eqb_eq in E; lia |].
  rewrite sort_length, index_95, index_99.
  change 20%Z with (Z.of_nat 20). change 100%Z with (Z.of_nat 100).
  rewrite <- !Nat2Z.inj_div.
  rewrite (index_in_range _ _ 0), (index_in_range _ _ 0).
  - reflexivity.
  - rewrite sort_length. apply Nat.Div0.div_lt_upper_bound. lia.
  - rewrite sort_length. apply Nat.Div0.div_lt_upper_bound. lia.
Qed.

Lemma historical_var_total (r : list Q) (v : Q) :
  exists vr, _historical_var r v = Ok vr.
Proof.
  destruct r as [| x r].
  - eexists. reflexivity.
  - eexists. apply historical_var_nonempty. discriminate.
Qed.

Lemma abs_scaled_zero (x v : Q) : v == 0 -> Qabs (x * v) == 0.
Proof.
  intros H. rewrite H. setoid_replace (x * 0) with 0 by ring. reflexivity.
Qed.

Lemma historical_var_zero_value (r : list Q) (v : Q) :
  v == 0 -> _historical_var r v = Ok (mkVaR 0 0).
Proof.
  intros H. destruct r as [| x r]; [reflexivity |].
  rewrite historical_var_nonempty by discriminate.
  rewrite !(round_zero _ (abs_scaled_zero _ _ H)). reflexivity.
Qed.

(** C1. Historical VaR: an empty series gives zeros; otherwise, with [s]
    the ascending sort of the series and [n] its length, var95 and var99
    are the rounded magnitudes of [s[floor(n*0.05)]] and
    [s[floor(n*0.01)]] times the portfolio value, with truncated indices;
    below twenty observations both indices are 0 and the figures agree. *)
Theorem historical_var_quantiles (r : list Q) (v : Q) :
  0 <= v ->
  (r = [] -> _historical_var r v = Ok (mkVaR 0 0)) /\
  (r <> [] ->
   let s := Np.sort r in
   let n := length r in
   let i95 := Z.to_nat (Qfloor (inject_Z (Z.of_nat n) * 0.05)) in
   let i99 := Z.to_nat (Qfloor (inject_Z (Z.of_nat n) * 0.01)) in
   Permutation r s /\ StronglySorted Qle s /\
   _historical_var r v =
     Ok (mkVaR (Np.round (Qabs (nth i95 s 0) * v))
               (Np.round (Qabs (nth i99 s 0) * v))) /\
   ((n < 20)%nat ->
    i95 = O /\ i99 = O /\ exists x, _historical_var r v = Ok (mkVaR x x))).
Proof.
  intros Hv. split; [intros ->; reflexivity |].
  intros Hr. cbv zeta. rewrite floor_95, floor_99.
  change 20%Z with (Z.of_nat 20). change 100%Z with (Z.of_nat 100).
  rewrite <- !Nat2Z.inj_div, !Nat2Z.id.
  assert (A : forall x, Qabs (x * v) == Qabs x * v).
  { intros x. rewrite Qabs_Qmult, (Qabs_pos v Hv). reflexivity. }
  assert (H : _historical_var r v =
              Ok (mkVaR
                    (Np.round (Qabs (nth (length r / 20) (Np.sort r) 0) * v))
                    (Np.round (Qabs (nth (length r / 100) (Np.sort r) 0) * v)))).
  { rewrite (historical_var_nonempty r v Hr).
    rewrite (round_comp _ _ (A (nth (length r / 20) (Np.sort r) 0))).
    rewrite (round_comp _ _ (A (nth (length r / 100) (Np.sort r) 0))).
    reflexivity. }
  split; [apply sort_perm |]. split; [apply sort_sorted |].
  split; [exact H |]. intros Hn.
  rewrite H. rewrite (Nat.div_small (length r) 20) by lia.
  rewrite (Nat.div_small (length r) 100) by lia.
  repeat split. eexists. reflexivity.
Qed.

Lemma historical_var_quantiles_witness :
  let r := [0.02; - 0.03; 0.01] in
  let s := Np.sort r in
  Permutation r s /\ StronglySorted Qle s /\
  _historical_var r 1000 =
    Ok (mkVaR (Np.round (Qabs (nth 0 s 0) * 1000))
              (Np.round (Qabs (nth 0 s 0) * 1000))) /\
  ((3 < 20)%nat ->
   O = O /\ O = O /\ exists x, _historical_var r 1000 = Ok (mkVaR x x)).
Proof.
  assert (Hv : 0 <= 1000) by (unfold Qle; simpl; lia).
  assert (Hr : [0.02; - 0.03; 0.01] <> []) by discriminate.
  exact (proj2 (historical_var_quantiles [0.02; - 0.03; 0.01] 1000 Hv) Hr).
Defined.

(** ** Portfolio value and weighted returns *)

Lemma ok_inj {A : Type} (a b : A) : Ok a = Ok b -> a = b.
Proof. congruence. Qed.

Lemma position_value_json (h : Holding) :
  position_value (json h) = Ok (exposure h).
Proof. reflexivity. Qed.

Lemma position_value_nonneg (pos : Position) (v : Q) :
  position_value pos = Ok v -> 0 <= v.
Proof.
  unfold position_value, Py.getitem, bind.
  destruct (quantity pos), (lotSize pos), (currentPrice pos);
    try discriminate.
  intros E. replace v with (Qabs (q * q0 * q1)) by congruence.
  apply Qabs_nonneg.
Qed.

Lemma portfolio_value_loop_nonneg (positions : list Position) :
  forall acc v,
    0 <= acc -> portfolio_value_loop positions acc = Ok v -> 0 <= v.
Proof.
  induction positions as [| pos rest IH]; simpl; intros acc v Hacc E.
  - injection E as <-. exact Hacc.
  - destruct (position_value pos) as [x |] eqn:P; simpl in E; [| discriminate].
    apply (IH (acc + x)); [| exact E].
    apply position_value_nonneg in P.
    rewrite <- (Qplus_0_r 0). apply Qplus_le_compat; assumption.
Qed.

Lemma portfolio_value_nonneg (positions : list Position) (v : Q) :
  _calculate_portfolio_value positions = Ok v -> 0 <= v.
Proof.
  apply portfolio_value_loop_nonneg. apply Qle_refl.
Qed.

Lemma dict_get_key {A : Type} (d : list (string * A)) (p : string) :
  In p (Py.dict_keys d) -> exists v, Py.dict_get d p = Some v.
Proof.
  induction d as [| [k v] d IH]; simpl; [tauto |].
  intros [E | H].
  - subst k. rewrite String.eqb_refl. eauto.
  - destruct (String.eqb k p); eauto.
Qed.

Lemma returns_columns_ok (returns : Returns) (n : nat) (products : list string) :
  (forall p, In p products -> In p (Py.dict_keys returns)) ->
  exists cols, returns_columns returns n products = Ok cols.
Proof.
  induction products as [| p rest IH]; simpl; intros H; [eauto |].
  destruct (dict_get_key returns p (H p (or_introl eq_refl))) as [series E].
  rewrite E. destruct IH as [cols C]; [intros q Hq; apply H; right; exact Hq |].
  rewrite C. simpl. eauto.
Qed.

Lemma portfolio_returns_zero_value (positions : list Position)
  (returns : Returns) (v : Q) :
  _calculate_portfolio_value positions = Ok v -> v == 0 ->
  exists n, _calculate_portfolio_returns positions returns = Ok (Np.zeros n).
Proof.
  intros Hv Hz. unfold _calculate_portfolio_returns.
  destruct returns as [| kv returns]; [exists O; reflexivity |].
  destruct (min_length (kv :: returns) =? 0)%nat; [exists O; reflexivity |].
  rewrite Hv. simpl.
  apply Qeq_bool_iff in Hz. rewrite Hz. eauto.
Qed.

(** ** Percentiles of a sorted sample *)

Lemma nth_all_zero (a : list Q) (i : nat) :
  Forall (fun x => x == 0) a -> nth i a 0 == 0.
Proof.
  intros H. revert i. induction H as [| x a Hx Ha IH]; intros [| i]; simpl;
    try reflexivity; auto.
Qed.

Lemma percentile_all_zero (a : list Q) (q : Q) :
  Forall (fun x => x == 0) a -> Np.percentile a q == 0.
Proof.
  intros H. unfold Np.percentile, Np.interpolate.
  rewrite !(nth_all_zero a _ H). ring.
Qed.

Lemma var_of_simulation_zero_value (sim : list Q) (v : Q) :
  v == 0 -> var_of_simulation sim v = mkVaR 0 0.
Proof.
  intros Hz. unfold var_of_simulation.
  assert (Z0 : Forall (fun x => x == 0)
                 (Np.sort (map (fun x => x * v) sim))).
  { apply sort_forall. apply Forall_forall. intros y Hy.
    apply in_map_iff in Hy. destruct Hy as [x [<- _]]. rewrite Hz. ring. }
  assert (P : forall q, Qabs (Np.percentile
                 (Np.sort (map (fun x => x * v) sim)) q) == 0).
  { intros q. rewrite (percentile_all_zero _ q Z0). reflexivity. }
  rewrite (round_zero _ (P 5)), (round_zero _ (P 1)). reflexivity.
Qed.

(** ** The two VaR methods *)

Section Methods.

Context {L : NumLib}.

Lemma garch_model_zero_value (r : list Q) (v : Q) (vr : VaRResult) :
  v == 0 -> garch_model r v = Ok vr -> vr = mkVaR 0 0.
Proof.
  intros Hz. unfold garch_model, garch_fit_t, garch_fit_normal,
    _simplified_garch, bind.
  destruct ARCH_AVAILABLE.
  - destruct (arch_fit StudentT _) as [res |].
    + destruct (params_nu res); intros E; apply ok_inj in E; subst vr;
        cbn [fst snd];
        rewrite !(round_zero _ (abs_scaled_zero _ _ Hz)); reflexivity.
    + destruct (arch_fit Normal _) as [res |]; [| discriminate].
      intros E; apply ok_inj in E; subst vr; cbn [fst snd].
      rewrite !(round_zero _ (abs_scaled_zero _ _ Hz)); reflexivity.
  - intros E; apply ok_inj in E; subst vr; cbn [fst snd].
    rewrite !(round_zero _ (abs_scaled_zero _ _ Hz)); reflexivity.
Qed.

Lemma garch_after_preliminaries (self : RiskEngine) (positions : list Position)
  (returns : Returns) (v : Q) (r : list Q) :
  _calculate_portfolio_value positions = Ok v ->
  _calculate_portfolio_returns positions returns = Ok r ->
  calculate_garch_var self positions returns =
    if (length r <? 100)%nat then _historical_var r v
    else match garch_model r v with
         | Ok vr => Ok vr
         | Raise _ => _historical_var r v
         end.
Proof.
  intros Hv Hr. unfold calculate_garch_var, garch_try. rewrite Hv, Hr.
  destruct (length r <? 100)%nat.
  - destruct (historical_var_total r v) as [vr E]. rewrite E. reflexivity.
  - destruct (garch_model r v); reflexivity.
Qed.

Lemma monte_carlo_after_preliminaries (self : RiskEngine)
  (positions : list Position) (returns : Returns) (simulations : nat)
  (g : rng_state) (v : Q) (r : list Q) :
  _calculate_portfolio_value positions = Ok v ->
  _calculate_portfolio_returns positions returns = Ok r ->
  fst (calculate_monte_carlo_var self positions returns simulations g) =
    match snd (fst (monte_carlo_try positions returns simulations g)) with
    | Ok vr => Ok vr
    | Raise _ => _historical_var r v
    end.
Proof.
  intros Hv Hr. unfold calculate_monte_carlo_var.
  assert (Hl : fst (fst (monte_carlo_try positions returns simulations g))
               = mkMcLocals (Some v)).
  { unfold monte_carlo_try. rewrite Hv.
    destruct (length (Py.dict_keys returns) =? 0)%nat; [reflexivity |].
    destruct (returns_columns _ _ _); [| reflexivity].
    destruct (simulate_portfolio_returns _ _ _ _ _ _) as [[sim |] g'];
      reflexivity. }
  destruct (monte_carlo_try positions returns simulations g)
    as [[locals res] g'].
  simpl in *. subst locals. destruct res; simpl; [reflexivity |].
  unfold monte_carlo_except. rewrite Hr. reflexivity.
Qed.

End Methods.

(** ** Stress evaluation *)

Lemma stress_loop_json (current_prices : Prices) (s : Q) (hs : list Holding) :
  forall acc, exists t,
    stress_loop current_prices s (map json hs) acc = Ok t /\
    t == acc + stress_total current_prices s hs.
Proof.
  induction hs as [| h hs IH]; intros acc.
  - exists acc. split; [reflexivity |]. unfold stress_total. simpl. ring.
  - cbn [map stress_loop json full_position product position quantity lotSize
         Py.getitem bind].
    unfold stress_total. cbn [map total]. unfold stress_term at 1.
    destruct (Py.dict_get current_prices (h_product h)) as [price |].
    + destruct (IH (acc + (price * (1 + s) - price) * h_quantity h
                          * h_lotSize h
                          * (if String.eqb (h_side h) "Long" then 1 else - (1))))
        as [t [E Ht]].
      exists t. split; [exact E |]. rewrite Ht. unfold stress_total. ring.
    + destruct (IH acc) as [t [E Ht]].
      exists t. split; [exact E |]. rewrite Ht. unfold stress_total. ring.
Qed.

Lemma stress_impact_json (current_prices : Prices) (s : Q) (hs : list Holding) :
  exists t,
    _calculate_stress_impact (map json hs) current_prices s = Ok t /\
    t == stress_total current_prices s hs.
Proof.
  destruct (stress_loop_json current_prices s hs 0) as [t [E Ht]].
  exists t. split; [exact E |]. rewrite Ht. ring.
Qed.

(** C8. The total stress impact is the sum, over the positions whose
    product has a current price, of
    [(currentPrice * s) * quantity * lotSize * (+1 if Long else -1)],
    the others adding nothing; a single Long position of 1000 lots of
    size 1 at price 85 loses 8500 under -10% and gains 8500 under +10%. *)
Theorem stress_impact_formula :
  (forall (hs : list Holding) (current_prices : Prices) (s : Q),
     exists t,
       _calculate_stress_impact (map json hs) current_prices s = Ok t /\
       t == stress_total current_prices s hs) /\
  (let book := [json (mkHolding "BRENT" 1000 1 85.00 "Long")] in
   let current_prices := [("BRENT", 85.00)] in
   (exists t, _calculate_stress_impact book current_prices (- 0.10) = Ok t /\
              t == - 8500.00) /\
   (exists t, _calculate_stress_impact book current_prices 0.10 = Ok t /\
              t == 8500.00) /\
   exists d1 d2 d3 w,
     run_stress_tests book current_prices =
       Ok [mkStress "-10% Shock" (-8500) d1; mkStress "+10% Shock" 8500 d2;
           mkStress "Historical Worst" w d3]).
Proof.
  split; [intros; apply stress_impact_json |].
  cbv zeta. split; [| split].
  - eexists. split; [vm_compute; reflexivity | vm_compute; reflexivity].
  - eexists. split; [vm_compute; reflexivity | vm_compute; reflexivity].
  - do 4 eexists. vm_compute. reflexivity.
Qed.

Lemma stress_total_flat (current_prices : Prices) (s : Q) (hs : list Holding) :
  Forall (fun h => h_quantity h * h_lotSize h == 0) hs ->
  stress_total current_prices s hs == 0.
Proof.
  intros H. unfold stress_total.
  induction H as [| h hs Hh Hhs IH]; simpl; [reflexivity |].
  rewrite IH. unfold stress_term.
  destruct (Py.dict_get current_prices (h_product h)) as [price |]; [| ring].
  setoid_replace (price * s * h_quantity h * h_lotSize h
                  * (if String.eqb (h_side h) "Long" then 1 else - (1)))
    with (price * s * (h_quantity h * h_lotSize h)
          * (if String.eqb (h_side h) "Long" then 1 else - (1))) by ring.
  rewrite Hh. ring.
Qed.

Lemma stress_tests_flat (current_prices : Prices) (hs : list Holding) :
  Forall (fun h => h_quantity h * h_lotSize h == 0) hs ->
  exists rs,
    run_stress_tests (map json hs) current_prices = Ok rs /\
    Forall (fun r => pnlImpact r = 0%Z) rs.
Proof.
  intros H. unfold run_stress_tests.
  destruct (stress_impact_json current_prices (- 0.10) hs) as [t1 [E1 H1]].
  destruct (stress_impact_json current_prices 0.10 hs) as [t2 [E2 H2]].
  destruct (stress_impact_json current_prices (- 0.15) hs) as [t3 [E3 H3]].
  rewrite E1, E2, E3. cbn [bind]. eexists. split; [reflexivity |].
  rewrite (stress_total_flat _ _ _ H) in H1.
  rewrite (stress_total_flat _ _ _ H) in H2.
  rewrite (stress_total_flat _ _ _ H) in H3.
  repeat constructor; cbn [pnlImpact]; apply round_zero; assumption.
Qed.

Section MethodTheorems.

Context {L : NumLib}.

(** C4. When the weighted return series has fewer than 100 observations,
    [calculate_garch_var] returns the Historical VaR result, whatever the
    fitting library is and does: no fit takes part in the result. *)
Theorem garch_short_series_is_historical (self : RiskEngine)
  (positions : list Position) (returns : Returns) (v : Q) (r : list Q) :
  _calculate_portfolio_value positions = Ok v ->
  _calculate_portfolio_returns positions returns = Ok r ->
  (length r < 100)%nat ->
  exists vr,
    _historical_var r v = Ok vr /\
    calculate_garch_var self positions returns = Ok vr /\
    garch_try positions returns =
      (mkGarchLocals (Some v) (Some r), Ok vr).
Proof.
  intros Hv Hr Hn.
  destruct (historical_var_total r v) as [vr E]. exists vr.
  split; [exact E |].
  apply Nat.ltb_lt in Hn.
  split.
  - rewrite (garch_after_preliminaries self _ _ _ _ Hv Hr), Hn. exact E.
  - unfold garch_try. rewrite Hv, Hr, Hn, E. reflexivity.
Qed.

Lemma monte_carlo_try_zero_value (positions : list Position)
  (returns : Returns) (simulations : nat) (g : rng_state) (v : Q)
  (vr : VaRResult) :
  _calculate_portfolio_value positions = Ok v -> v == 0 ->
  snd (fst (monte_carlo_try positions returns simulations g)) = Ok vr ->
  vr = mkVaR 0 0.
Proof.
  intros Hv Hz. unfold monte_carlo_try. rewrite Hv.
  destruct (length (Py.dict_keys returns) =? 0)%nat.
  - cbn [fst snd]. intros E. apply ok_inj in E. congruence.
  - destruct (returns_columns _ _ _); [| discriminate].
    destruct (simulate_portfolio_returns _ _ _ _ _ _) as [[sim |] g'];
      cbn [fst snd]; [| discriminate].
    intros E. apply ok_inj in E. subst vr.
    apply var_of_simulation_zero_value. exact Hz.
Qed.

(** C5, as the engine behaves.  With no exposure (an empty book, or a
    total exposure of zero) [garch] returns zeros, and so does
    [montecarlo] on a regular sample: no instrument, or at least two
    observations of every instrument and at least one draw (below that
    NumPy's statistics are NaN).  The stress scenarios return zeros for
    an empty book and whenever every position has
    [quantity * lotSize = 0]; they read prices from [current_prices],
    not from the positions. *)
Theorem zero_exposure_zero_results (self : RiskEngine)
  (positions : list Position) (returns : Returns) (current_prices : Prices)
  (simulations : nat) (g : rng_state) (v : Q) :
  _calculate_portfolio_value positions = Ok v -> v == 0 ->
  calculate_garch_var self positions returns = Ok (mkVaR 0 0) /\
  (regular_sample returns simulations ->
   fst (calculate_monte_carlo_var self positions returns simulations g)
     = Ok (mkVaR 0 0)) /\
  (forall hs,
     positions = map json hs ->
     Forall (fun h => h_quantity h * h_lotSize h == 0) hs ->
     exists rs,
       run_stress_tests positions current_prices = Ok rs /\
       Forall (fun r => pnlImpact r = 0%Z) rs).
Proof.
  intros Hv Hz.
  destruct (portfolio_returns_zero_value positions returns v Hv Hz) as [n Hr].
  split; [| split].
  - rewrite (garch_after_preliminaries self _ _ _ _ Hv Hr).
    rewrite (historical_var_zero_value _ _ Hz).
    destruct (length (Np.zeros n) <? 100)%nat; [reflexivity |].
    destruct (garch_model (Np.zeros n) v) as [vr |] eqn:E; [| reflexivity].
    rewrite (garch_model_zero_value _ _ _ Hz E). reflexivity.
  - intros _.
    rewrite (monte_carlo_after_preliminaries self _ _ simulations g _ _ Hv Hr).
    rewrite (historical_var_zero_value _ _ Hz).
    destruct (snd (fst (monte_carlo_try positions returns simulations g)))
      as [vr |] eqn:E; [| reflexivity].
    rewrite (monte_carlo_try_zero_value _ _ _ _ _ _ Hv Hz E). reflexivity.
  - intros hs -> Hflat. apply stress_tests_flat. exact Hflat.
Qed.


End MethodTheorems.

(** ** Order of the tail figures *)

Lemma abs_le_of_nonpos (x y : Q) : y <= x -> x <= 0 -> Qabs x <= Qabs y.
Proof.
  intros Hyx Hx.
  rewrite (Qabs_neg x Hx), (Qabs_neg y) by (eapply Qle_trans; eassumption).
  apply Qopp_le_compat. exact Hyx.
Qed.

Lemma abs_scale_le (a b x y : Q) :
  Qabs a <= Qabs b -> Qabs (a * x * y) <= Qabs (b * x * y).
Proof.
  intros H. rewrite !Qabs_Qmult.
  repeat apply Qmult_le_compat_r; try apply Qabs_nonneg. exact H.
Qed.

Lemma floor_nonneg (x : Q) : 0 <= x -> (0 <= Qfloor x)%Z.
Proof.
  intros H. change 0%Z with (Qfloor 0). apply Qfloor_resp_le. exact H.
Qed.

Lemma floor_le_bound (x : Q) (m : Z) : x <= inject_Z m -> (Qfloor x <= m)%Z.
Proof.
  intros H. rewrite <- (Qfloor_Z m). apply Qfloor_resp_le. exact H.
Qed.

Lemma fraction_bounds (x : Q) :
  0 <= x - inject_Z (Qfloor x) /\ x - inject_Z (Qfloor x) <= 1.
Proof.
  pose proof (Qfloor_le x) as H1. pose proof (Qlt_floor x) as H2.
  rewrite inject_Z_plus in H2.
  generalize dependent (inject_Z (Qfloor x)). intros c H1 H2.
  change (inject_Z 1) with 1 in H2. split; lra.
Qed.

Lemma convex_between (lo hi g : Q) :
  lo <= hi -> 0 <= g -> g <= 1 ->
  lo <= lo + g * (hi - lo) /\ lo + g * (hi - lo) <= hi.
Proof.
  intros H G0 G1.
  assert (A : 0 <= g * (hi - lo)) by (apply Qmult_le_0_compat; lra).
  assert (B : 0 <= (1 - g) * (hi - lo)) by (apply Qmult_le_0_compat; lra).
  split; [lra |].
  setoid_replace (lo + g * (hi - lo)) with (hi - (1 - g) * (hi - lo)) by ring.
  lra.
Qed.

Lemma interpolate_bounds (a : list Q) (x : Q) :
  StronglySorted Qle a -> 0 <= x ->
  x <= inject_Z (Z.of_nat (length a - 1)) ->
  (0 < length a)%nat ->
  nth (Z.to_nat (Qfloor x)) a 0 <= Np.interpolate a x /\
  Np.interpolate a x
    <= nth (Nat.min (S (Z.to_nat (Qfloor x))) (length a - 1)) a 0.
Proof.
  intros Hs H0 Hx Hn. unfold Np.interpolate.
  pose proof (floor_nonneg x H0) as F0.
  pose proof (floor_le_bound x _ Hx) as F1.
  destruct (fraction_bounds x) as [G0 G1].
  apply convex_between; try assumption.
  apply sorted_nth_le; [exact Hs | lia | lia].
Qed.

Lemma interpolate_mono (a : list Q) (x y : Q) :
  StronglySorted Qle a -> 0 <= x -> x <= y ->
  y <= inject_Z (Z.of_nat (length a - 1)) ->
  Np.interpolate a x <= Np.interpolate a y.
Proof.
  intros Hs H0 Hxy Hy.
  destruct a as [| a0 a'] eqn:Ea.
  { unfold Np.interpolate. simpl.
    destruct (Z.to_nat (Qfloor x)), (Z.to_nat (Qfloor y)); simpl; lra. }
  rewrite <- Ea in *. assert (Hn : (0 < length a)%nat) by (subst a; simpl; lia).
  clear Ea a0 a'.
  assert (Hx : x <= inject_Z (Z.of_nat (length a - 1)))
    by (eapply Qle_trans; eassumption).
  assert (H0y : 0 <= y) by (eapply Qle_trans; eassumption).
  pose proof (floor_nonneg x H0) as Fx0.
  pose proof (floor_le_bound y _ Hy) as Fy1.
  pose proof (Qfloor_resp_le _ _ Hxy) as Fxy.
  destruct (Z.eq_dec (Qfloor x) (Qfloor y)) as [E | NE].
  - unfold Np.interpolate. rewrite E.
    set (lo := nth (Z.to_nat (Qfloor y)) a 0).
    set (hi := nth (Nat.min (S (Z.to_nat (Qfloor y))) (length a - 1)) a 0).
    assert (D : lo <= hi).
    { apply sorted_nth_le; [exact Hs | lia | lia]. }
    generalize dependent (inject_Z (Qfloor y)). intros c.
    assert (P : 0 <= (y - x) * (hi - lo)) by (apply Qmult_le_0_compat; lra).
    setoid_replace (lo + (y - c) * (hi - lo))
      with (lo + (x - c) * (hi - lo) + (y - x) * (hi - lo)) by ring.
    lra.
  - destruct (interpolate_bounds a x Hs H0 Hx Hn) as [_ Ux].
    destruct (interpolate_bounds a y Hs H0y Hy Hn) as [Ly _].
    eapply Qle_trans; [exact Ux |]. eapply Qle_trans; [| exact Ly].
    apply sorted_nth_le; [exact Hs | lia | lia].
Qed.

Lemma percentile_mono (a : list Q) (p q : Q) :
  StronglySorted Qle a -> 0 <= p -> p <= q -> q <= 100 ->
  Np.percentile a p <= Np.percentile a q.
Proof.
  intros Hs H0 Hpq Hq. unfold Np.percentile.
  set (m := inject_Z (Z.of_nat (length a - 1))).
  assert (N : 0 <= m).
  { unfold m. change 0 with (inject_Z 0). rewrite <- Zle_Qle. lia. }
  assert (A : 0 <= m * p) by (apply Qmult_le_0_compat; assumption).
  assert (B : m * p <= m * q).
  { rewrite !(Qmult_comm m). apply Qmult_le_compat_r; assumption. }
  assert (C : m * q <= m * 100).
  { rewrite !(Qmult_comm m). apply Qmult_le_compat_r; assumption. }
  apply interpolate_mono.
  - exact Hs.
  - apply Qle_shift_div_l; [reflexivity |]. rewrite Qmult_0_l. exact A.
  - unfold Qdiv. apply Qmult_le_compat_r; [exact B | discriminate].
  - apply Qle_shift_div_r; [reflexivity | exact C].
Qed.

Section TailOrder.

Context {L : NumLib}.

Lemma garch_model_tail_order (r : list Q) (v : Q) (vr : VaRResult) :
  norm_ppf 0.01 <= norm_ppf 0.05 -> norm_ppf 0.05 <= 0 ->
  (forall nu, t_ppf 0.01 nu <= t_ppf 0.05 nu /\ t_ppf 0.05 nu <= 0) ->
  garch_model r v = Ok vr -> (var95 vr <= var99 vr)%Z.
Proof.
  intros N1 N0 T. unfold garch_model, garch_fit_t, garch_fit_normal,
    _simplified_garch, bind.
  assert (NA : Qabs (norm_ppf 0.05) <= Qabs (norm_ppf 0.01))
    by (apply abs_le_of_nonpos; assumption).
  destruct ARCH_AVAILABLE.
  - destruct (arch_fit StudentT _) as [res |].
    + destruct (params_nu res) as [nu |]; intros E; apply ok_inj in E;
        subst vr; cbn [fst snd var95 var99]; apply round_mono;
        apply abs_scale_le; [| exact NA].
      destruct (T nu). apply abs_le_of_nonpos; assumption.
    + destruct (arch_fit Normal _) as [res |]; [| discriminate].
      intros E; apply ok_inj in E; subst vr; cbn [fst snd var95 var99].
      apply round_mono, abs_scale_le, NA.
  - intros E; apply ok_inj in E; subst vr; cbn [fst snd var95 var99].
    apply round_mono, abs_scale_le, NA.
Qed.

(** C3, as the engine behaves.  var99 >= var95 holds when the 5%
    quantile the figures are read from is not positive: for Historical
    VaR the sorted return at index [floor(n * 0.05)], for the simulated
    sample the 5th percentile of the P&L; for the fitted distributions
    it holds as soon as the inverse-CDF values at 1% and 5% are ordered
    and not positive. *)
Theorem tail_order_for_nonpositive_quantile :
  (forall (r : list Q) (v : Q) (vr : VaRResult),
     0 <= v ->
     _historical_var r v = Ok vr ->
     nth (Z.to_nat (Qfloor (inject_Z (Z.of_nat (length r)) * 0.05)))
         (Np.sort r) 0 <= 0 ->
     (var95 vr <= var99 vr)%Z) /\
  (forall (sim : list Q) (v : Q),
     Np.percentile (Np.sort (map (fun x => x * v) sim)) 5 <= 0 ->
     (var95 (var_of_simulation sim v) <= var99 (var_of_simulation sim v))%Z) /\
  (forall (r : list Q) (v : Q) (vr : VaRResult),
     norm_ppf 0.01 <= norm_ppf 0.05 -> norm_ppf 0.05 <= 0 ->
     (forall nu, t_ppf 0.01 nu <= t_ppf 0.05 nu /\ t_ppf 0.05 nu <= 0) ->
     garch_model r v = Ok vr ->
     (var95 vr <= var99 vr)%Z).
Proof.
  split; [| split].
  - intros r v vr Hv E Hq.
    destruct r as [| x r']; [apply ok_inj in E; subst vr; simpl; lia |].
    set (r := x :: r') in *.
    rewrite historical_var_nonempty in E by discriminate.
    apply ok_inj in E. subst vr. cbn [var95 var99].
    rewrite floor_95 in Hq. change 20%Z with (Z.of_nat 20) in Hq.
    rewrite <- Nat2Z.inj_div, Nat2Z.id in Hq.
    apply round_mono, abs_le_of_nonpos.
    + apply Qmult_le_compat_r; [| exact Hv].
      apply sorted_nth_le; [apply sort_sorted | |].
      * apply Nat.div_le_compat_l. lia.
      * rewrite sort_length. apply Nat.Div0.div_lt_upper_bound.
        unfold r. simpl. lia.
    + apply (Qle_trans _ (0 * v)).
      * apply Qmult_le_compat_r; assumption.
      * rewrite Qmult_0_l. apply Qle_refl.
  - intros sim v Hq. unfold var_of_simulation. cbn [var95 var99].
    apply round_mono, abs_le_of_nonpos; [| exact Hq].
    apply percentile_mono; [apply sort_sorted | | |]; discriminate.
  - apply garch_model_tail_order.
Qed.

End TailOrder.

(** ** The EWMA estimator *)

Lemma fold_plus_total (l : list Q) :
  forall acc, fold_left Qplus l acc == acc + total l.
Proof.
  induction l as [| x l IH]; intros acc; simpl; [ring |].
  rewrite IH. ring.
Qed.

Lemma sum_total (l : list Q) : Np.sum l == total l.
Proof.
  unfold Np.sum. rewrite fold_plus_total. ring.
Qed.

Lemma total_map_ext {A : Type} (f g : A -> Q) (l : list A) :
  (forall x, In x l -> f x == g x) -> total (map f l) == total (map g l).
Proof.
  induction l as [| x l IH]; intros H; simpl; [reflexivity |].
  rewrite IH by (intros y Hy; apply H; right; exact Hy).
  rewrite (H x) by (left; reflexivity). reflexivity.
Qed.

Lemma total_map_div {A : Type} (f : A -> Q) (c : Q) (l : list A) :
  total (map (fun x => f x / c) l) == total (map f l) / c.
Proof.
  induction l as [| x l IH]; simpl.
  - unfold Qdiv. ring.
  - rewrite IH. unfold Qdiv. ring.
Qed.

Lemma total_pos {A : Type} (f : A -> Q) (l : list A) :
  l <> [] -> (forall x, 0 < f x) -> 0 < total (map f l).
Proof.
  intros Hl Hf. destruct l as [| x l]; [congruence |]. clear Hl. simpl.
  assert (T : 0 <= total (map f l)).
  { induction l as [| y l IH]; simpl; [apply Qle_refl |].
    pose proof (Hf y). lra. }
  pose proof (Hf x). lra.
Qed.

Lemma ewma_raw_weight_pos (i : nat) : 0 < ewma_raw_weight i.
Proof.
  unfold ewma_raw_weight.
  apply Qmult_lt_0_compat; [reflexivity |].
  apply Qpower_0_lt. reflexivity.
Qed.

Lemma ewma_weights_sum_to_one (n : nat) :
  (0 < n)%nat -> total (map (ewma_weight n) (seq 0 n)) == 1.
Proof.
  intros Hn. unfold ewma_weight.
  rewrite (total_map_div ewma_raw_weight).
  assert (P : 0 < total (map ewma_raw_weight (seq 0 n))).
  { apply total_pos; [| apply ewma_raw_weight_pos].
    destruct n; [lia | discriminate]. }
  field. intros E. rewrite E in P. discriminate.
Qed.

Lemma mul_map_seq (f : nat -> Q) (b : list Q) :
  forall k,
    Np.mul (map f (seq k (length b))) b
    = map (fun i => f i * nth (i - k) b 0) (seq k (length b)).
Proof.
  induction b as [| y b IH]; intros k; simpl; [reflexivity |].
  rewrite Nat.sub_diag. f_equal.
  rewrite IH. apply map_ext_in. intros i Hi. apply in_seq in Hi.
  replace (i - k)%nat with (S (i - S k)) by lia. reflexivity.
Qed.

Lemma mul_map_seq_length (f : nat -> Q) (b : list Q) (n : nat) :
  length b = n ->
  Np.mul (map f (seq 0 n)) b = map (fun i => f i * nth (i - 0) b 0) (seq 0 n).
Proof.
  intros <-. apply mul_map_seq.
Qed.

Lemma nth_squares (l : list Q) (j : nat) :
  nth j (map (fun r => r ^ 2) l) 0 = (nth j l 0) ^ 2.
Proof.
  exact (map_nth (fun r => r ^ 2) l 0 j).
Qed.

Section Ewma.

Context {L : NumLib}.

(** The variance that [_simplified_garch] computes. *)
Lemma simplified_garch_variance (r : list Q) (v : Q) :
  exists variance,
    variance == ewma_variance r /\
    _simplified_garch r v =
      (Qabs (norm_ppf 0.05 * np_sqrt variance * v),
       Qabs (norm_ppf 0.01 * np_sqrt variance * v)).
Proof.
  unfold _simplified_garch. cbv zeta.
  eexists. split; [| reflexivity].
  rewrite sum_total.
  rewrite length_map.
  change (map (fun i : nat => (1 - 0.94) * 0.94 ^ Z.of_nat i)
              (seq 0 (length r)))
    with (map ewma_raw_weight (seq 0 (length r))).
  rewrite map_map.
  assert (E : length (rev (map (fun x => x ^ 2) r)) = length r)
    by (rewrite length_rev, length_map; reflexivity).
  rewrite (mul_map_seq_length _ _ _ E).
  unfold ewma_variance. cbv zeta.
  apply total_map_ext. intros i Hi. apply in_seq in Hi.
  rewrite Nat.sub_0_r.
  rewrite rev_nth by (rewrite length_map; lia).
  rewrite length_map, nth_squares.
  replace (length r - S i)%nat with (length r - 1 - i)%nat by lia.
  unfold ewma_weight.
  rewrite (sum_total (map ewma_raw_weight (seq 0 (length r)))).
  reflexivity.
Qed.

(** C7. Without the conditional-volatility library and with at least 100
    observations, the variance is the normalised EWMA with decay 0.94
    (the weights sum to 1, the weight of lag [i] multiplies the squared
    return [i] places before the latest), and var95, var99 are
    [|ppf(0.05)| * sqrt(variance) * value] and
    [|ppf(0.01)| * sqrt(variance) * value], rounded. *)
Theorem ewma_var_without_arch (self : RiskEngine) (positions : list Position)
  (returns : Returns) (v : Q) (r : list Q) :
  ARCH_AVAILABLE = false ->
  (forall x y, x == y -> np_sqrt x == np_sqrt y) ->
  (forall x, 0 <= np_sqrt x) ->
  _calculate_portfolio_value positions = Ok v ->
  _calculate_portfolio_returns positions returns = Ok r ->
  (100 <= length r)%nat ->
  total (map (ewma_weight (length r)) (seq 0 (length r))) == 1 /\
  calculate_garch_var self positions returns =
    Ok (mkVaR
          (Np.round (Qabs (norm_ppf 0.05) * np_sqrt (ewma_variance r) * v))
          (Np.round (Qabs (norm_ppf 0.01) * np_sqrt (ewma_variance r) * v))).
Proof.
  intros Harch Sp Sn Hv Hr Hn.
  split; [apply ewma_weights_sum_to_one; lia |].
  rewrite (garch_after_preliminaries self _ _ _ _ Hv Hr).
  assert (N : (length r <? 100)%nat = false) by (apply Nat.ltb_ge; exact Hn).
  rewrite N. unfold garch_model. rewrite Harch. cbn [bind].
  destruct (simplified_garch_variance r v) as [variance [Ev ->]].
  cbn [fst snd].
  pose proof (portfolio_value_nonneg _ _ Hv) as V0.
  assert (A : forall c,
             Qabs (c * np_sqrt variance * v)
             == Qabs c * np_sqrt (ewma_variance r) * v).
  { intros c. rewrite !Qabs_Qmult.
    rewrite (Qabs_pos v V0), (Qabs_pos _ (Sn variance)).
    rewrite (Sp _ _ Ev). reflexivity. }
  rewrite (round_comp _ _ (A (norm_ppf 0.05))).
  rewrite (round_comp _ _ (A (norm_ppf 0.01))). reflexivity.
Qed.

End Ewma.

(** ** Monte Carlo: the single-instrument branch and the generator *)

Lemma aggregate_rule_single_short (x : Q) :
  aggregate_rule "BRENT" [mkHolding "BRENT" 1000 1 85 "Short"] x == - x.
Proof.
  unfold aggregate_rule. cbv zeta.
  set (h := mkHolding "BRENT" 1000 1 85 "Short").
  replace (Qeq_bool (total (map exposure [h])) 0) with false
    by (vm_compute; reflexivity).
  cbn [map total]. unfold aggregate_term.
  change (String.eqb (h_product h) "BRENT") with true.
  change (String.eqb (h_side h) "Short") with true.
  cbv iota.
  setoid_replace (exposure h / (exposure h + 0)) with 1
    by (vm_compute; reflexivity).
  ring.
Qed.

Section MonteCarlo.

Context {L : NumLib}.

(** C6 at the single-instrument case: with one instrument in [returns],
    the VaR is read off the raw Normal draws; the positions enter through
    the portfolio value only, so neither their side nor their weight nor
    their product is applied, whereas the aggregation rule turns a draw
    [x] of a book that is short the instrument into [- x]. *)
Theorem single_instrument_skips_aggregation (self : RiskEngine)
  (positions : list Position) (p : string) (series : list Q)
  (simulations : nat) (g : rng_state) (v : Q) :
  _calculate_portfolio_value positions = Ok v ->
  fst (calculate_monte_carlo_var self positions [(p, series)] simulations g)
    = Ok (var_of_simulation
            (fst (random_normal (Np.mean series)
                    (np_sqrt (Np.cov2 series series)) simulations g))
            v) /\
  (forall x,
     aggregate_rule "BRENT" [mkHolding "BRENT" 1000 1 85 "Short"] x == - x).
Proof.
  intros Hv. split; [| apply aggregate_rule_single_short].
  unfold calculate_monte_carlo_var, monte_carlo_try. rewrite Hv.
  cbn [Py.dict_keys map fst length Nat.eqb returns_columns Py.dict_get].
  rewrite String.eqb_refl.
  cbn [returns_columns bind min_length Py.dict_values map snd Py.min_len
       fold_left].
  rewrite firstn_all.
  unfold simulate_portfolio_returns.
  cbn [length Nat.eqb map Np.cov nth Py.index Z.ltb Z.compare Z.of_nat
       Z.to_nat nth_error].
  destruct (random_normal (Np.mean series) (np_sqrt (Np.cov2 series series))
              simulations g) as [sim g'].
  reflexivity.
Qed.


Lemma calls_app (self : RiskEngine) (cs1 cs2 : list Call) :
  forall g,
    calls self (cs1 ++ cs2)%list g
    = ((fst (calls self cs1 g)
          ++ fst (calls self cs2 (snd (calls self cs1 g))))%list,
       snd (calls self cs2 (snd (calls self cs1 g)))).
Proof.
  induction cs1 as [| c cs1 IH]; intros g.
  - cbn [app calls fst snd]. destruct (calls self cs2 g). reflexivity.
  - cbn [app calls]. destruct (call self c g) as [o g1].
    rewrite IH. destruct (calls self cs1 g1) as [os1 g2]. cbn [fst snd].
    destruct (calls self cs2 g2) as [os2 g3]. reflexivity.
Qed.

(** C9, as the engine behaves.  Two runs that each construct an engine
    with a seed [s] that [np.random.seed] accepts and then serve the
    same calls, with no engine
    constructed and no draw made in between, give the same outputs:
    in two processes, whatever state their generators were in, and in
    one process when the second engine is constructed after the first
    has served its calls.  Two engines constructed before either is
    called share the generator: the second continues the draws of the
    first, so together they answer as one engine serving the calls
    twice. *)
Theorem same_seed_runs_agree_unless_interleaved (s : Z) (cs : list Call)
  (g1 g2 : rng_state) :
  seed_accepted s = true ->
  run s cs g1 = run s cs g2 /\
  (let (a, ga) := __init__ s g1 in
   let (outs_a, g') := calls a cs ga in
   let (b, gb) := __init__ s g' in
   fst (calls b cs gb) = outs_a) /\
  (let (a, ga) := __init__ s g1 in
   let (b, gb) := __init__ s ga in
   let (outs_a, g') := calls a cs gb in
   let (outs_b, g'') := calls b cs g' in
   (outs_a ++ outs_b)%list = fst (calls a (cs ++ cs)%list gb)).
Proof.
  intros _.
  split; [reflexivity |]. unfold __init__. cbv beta iota zeta. split.
  - destruct (calls (mkEngine s) cs (random_seed s)) as [outs_a g'].
    reflexivity.
  - rewrite calls_app.
    destruct (calls (mkEngine s) cs (random_seed s)) as [outs_a g'].
    cbn [fst snd].
    destruct (calls (mkEngine s) cs g') as [outs_b g'']. reflexivity.
Qed.


End MonteCarlo.

(** ** The reference instance *)

Lemma ref_sqrt_proper (x y : Q) : x == y -> Ref.sqrt x == Ref.sqrt y.
Proof.
  intros H. unfold Ref.sqrt.
  assert (E : Qfloor (x * 1000000000000) = Qfloor (y * 1000000000000)).
  { apply Qfloor_comp. rewrite H. reflexivity. }
  rewrite E. reflexivity.
Qed.

Lemma ref_sqrt_nonneg (x : Q) : 0 <= Ref.sqrt x.
Proof.
  unfold Ref.sqrt, Qle. cbn [Qnum Qden].
  pose proof (Z.sqrt_nonneg (Qfloor (x * 1000000000000))). lia.
Qed.

Lemma ref_student_tail (nu : Q) :
  Ref.student_quantile 0.01 nu <= Ref.student_quantile 0.05 nu /\
  Ref.student_quantile 0.05 nu <= 0.
Proof.
  split; vm_compute; discriminate.
Qed.

(** ** Instances of the theorems on sample requests *)

Lemma garch_short_series_is_historical_witness :
  exists vr,
    _historical_var Sample.series3 85000 = Ok vr /\
    calculate_garch_var (L := Ref.fitted_lib) (mkEngine 42) Sample.book
      Sample.returns3 = Ok vr /\
    garch_try (L := Ref.fitted_lib) Sample.book Sample.returns3 =
      (mkGarchLocals (Some 85000) (Some Sample.series3), Ok vr).
Proof.
  apply (garch_short_series_is_historical (L := Ref.fitted_lib) (mkEngine 42)
           Sample.book Sample.returns3 85000 Sample.series3).
  - reflexivity.
  - reflexivity.
  - simpl. lia.
Defined.

Lemma zero_exposure_zero_results_witness :
  calculate_garch_var (L := Ref.fitted_lib) (mkEngine 42) Sample.flat_book
    Sample.returns100 = Ok (mkVaR 0 0) /\
  fst (calculate_monte_carlo_var (L := Ref.fitted_lib) (mkEngine 42)
         Sample.flat_book Sample.returns_two 10 42%Z) = Ok (mkVaR 0 0) /\
  exists rs,
    run_stress_tests Sample.flat_book Sample.prices = Ok rs /\
    Forall (fun r => pnlImpact r = 0%Z) rs.
Proof.
  assert (Hv : _calculate_portfolio_value Sample.flat_book = Ok 0)
    by reflexivity.
  assert (Hz : 0 == 0) by reflexivity.
  assert (Hs : regular_sample Sample.returns_two 10).
  { right. split; [apply Nat.leb_le; reflexivity | lia]. }
  split; [| split].
  - exact (proj1 (zero_exposure_zero_results (L := Ref.fitted_lib)
             (mkEngine 42) Sample.flat_book Sample.returns100 Sample.prices
             10 42%Z 0 Hv Hz)).
  - exact (proj1 (proj2 (zero_exposure_zero_results (L := Ref.fitted_lib)
             (mkEngine 42) Sample.flat_book Sample.returns_two Sample.prices
             10 42%Z 0 Hv Hz)) Hs).
  - apply (proj2 (proj2 (zero_exposure_zero_results (L := Ref.fitted_lib)
             (mkEngine 42) Sample.flat_book Sample.returns_two Sample.prices
             10 42%Z 0 Hv Hz)) [mkHolding "BRENT" 0 1 85 "Long"]).
    + reflexivity.
    + repeat constructor.
Defined.

(** C5 fails for the stress scenarios: a book whose exposure is zero
    because its positions carry a zero price still gains and loses under
    the market prices. *)
Lemma stress_nonzero_at_zero_exposure :
  _calculate_portfolio_value Sample.unpriced_book = Ok 0 /\
  run_stress_tests Sample.unpriced_book Sample.prices =
    Ok [mkStress "-10% Shock" (-8500)
          "10% decline in all oil and fuel prices";
        mkStress "+10% Shock" 8500
          "10% increase in all oil and fuel prices";
        mkStress "Historical Worst" (-12750)
          "Repeat of historical worst daily oil price decline"].
Proof.
  split; vm_compute; reflexivity.
Qed.



Lemma tail_order_for_nonpositive_quantile_witness :
  (var95 (mkVaR 30 30) <= var99 (mkVaR 30 30))%Z /\
  (var95 (var_of_simulation Sample.three 1000)
   <= var99 (var_of_simulation Sample.three 1000))%Z /\
  (var95 (mkVaR 3426 5720) <= var99 (mkVaR 3426 5720))%Z.
Proof.
  destruct (tail_order_for_nonpositive_quantile (L := Ref.fitted_lib))
    as [H [S P]].
  split; [| split].
  - apply (H Sample.three 1000 (mkVaR 30 30)).
    + discriminate.
    + vm_compute. reflexivity.
    + vm_compute. discriminate.
  - apply (S Sample.three 1000). vm_compute. discriminate.
  - apply (P Sample.three 85000 (mkVaR 3426 5720)).
    + vm_compute. discriminate.
    + vm_compute. discriminate.
    + apply ref_student_tail.
    + vm_compute. reflexivity.
Defined.

(** C3 fails on a series of gains: the sorted returns are all positive,
    so the magnitude at the 5% index exceeds the one at the 1% index. *)
Lemma var95_exceeds_var99_on_gains :
  calculate_garch_var (L := Ref.ewma_lib) (mkEngine 42) Sample.unit_book
    Sample.returns_rising = Ok (mkVaR 20 10) /\
  _historical_var Sample.rising20 1000 = Ok (mkVaR 20 10) /\
  (var99 (mkVaR 20 10) < var95 (mkVaR 20 10))%Z.
Proof.
  repeat split; vm_compute; reflexivity.
Qed.

(** C9 fails for two instances that are both constructed before either
    is called: with seed 42 twice, the first Monte Carlo call draws from
    the seeded state and the second, on the other instance, from the
    state the first call left. *)
Lemma same_seed_instances_differ_when_interleaved :
  let c := MonteCarloCall Sample.book Sample.returns3 10 in
  let a := fst (__init__ (L := Ref.ewma_lib) 42 0%Z) in
  let ga := snd (__init__ (L := Ref.ewma_lib) 42 0%Z) in
  let b := fst (__init__ (L := Ref.ewma_lib) 42 ga) in
  let gb := snd (__init__ (L := Ref.ewma_lib) 42 ga) in
  let out_a := fst (call a c gb) in
  let out_b := fst (call b c (snd (call a c gb))) in
  seed a = seed b /\
  out_a = VaROutput (Ok (mkVaR 1322 1943)) /\
  out_b = VaROutput (Ok (mkVaR 1606 1721)) /\
  out_a <> out_b.
Proof.
  cbv zeta. split; [reflexivity |].
  assert (A : fst (call (L := Ref.ewma_lib) (mkEngine 42)
                     (MonteCarloCall Sample.book Sample.returns3 10) 42%Z)
              = VaROutput (Ok (mkVaR 1322 1943)))
    by (vm_compute; reflexivity).
  assert (B : fst (call (L := Ref.ewma_lib) (mkEngine 42)
                     (MonteCarloCall Sample.book Sample.returns3 10)
                     (snd (call (L := Ref.ewma_lib) (mkEngine 42)
                             (MonteCarloCall Sample.book Sample.returns3 10)
                             42%Z)))
              = VaROutput (Ok (mkVaR 1606 1721)))
    by (vm_compute; reflexivity).
  split; [exact A |]. split; [exact B |].
  change (fst (call (L := Ref.ewma_lib) (mkEngine 42)
                 (MonteCarloCall Sample.book Sample.returns3 10) 42%Z)
          <> fst (call (L := Ref.ewma_lib) (mkEngine 42)
                    (MonteCarloCall Sample.book Sample.returns3 10)
                    (snd (call (L := Ref.ewma_lib) (mkEngine 42)
                            (MonteCarloCall Sample.book Sample.returns3 10)
                            42%Z)))).
  rewrite A, B. discriminate.
Qed.

Lemma same_seed_runs_agree_unless_interleaved_witness :
  seed_accepted 42 = true /\
  let cs := [MonteCarloCall Sample.book Sample.returns3 10] in
  run (L := Ref.ewma_lib) 42 cs 0%Z = run (L := Ref.ewma_lib) 42 cs 7%Z /\
  (let (a, ga) := __init__ (L := Ref.ewma_lib) 42 0%Z in
   let (outs_a, g') := calls a cs ga in
   let (b, gb) := __init__ (L := Ref.ewma_lib) 42 g' in
   fst (calls b cs gb) = outs_a) /\
  (let (a, ga) := __init__ (L := Ref.ewma_lib) 42 0%Z in
   let (b, gb) := __init__ (L := Ref.ewma_lib) 42 ga in
   let (outs_a, g') := calls a cs gb in
   let (outs_b, g'') := calls b cs g' in
   (outs_a ++ outs_b)%list = fst (calls a (cs ++ cs)%list gb)).
Proof.
  split; [reflexivity |].
  exact (same_seed_runs_agree_unless_interleaved (L := Ref.ewma_lib) 42
           [MonteCarloCall Sample.book Sample.returns3 10] 0%Z 7%Z eq_refl).
Defined.

Lemma ewma_var_without_arch_witness :
  total (map (ewma_weight (length Sample.series100))
           (seq 0 (length Sample.series100))) == 1 /\
  calculate_garch_var (L := Ref.ewma_lib) (mkEngine 42) Sample.book
    Sample.returns100 =
    Ok (mkVaR
          (Np.round (Qabs (Ref.normal_quantile 0.05)
                     * Ref.sqrt (ewma_variance Sample.series100) * 85000))
          (Np.round (Qabs (Ref.normal_quantile 0.01)
                     * Ref.sqrt (ewma_variance Sample.series100) * 85000))).
Proof.
  apply (ewma_var_without_arch (L := Ref.ewma_lib) (mkEngine 42) Sample.book
           Sample.returns100 85000 Sample.series100).
  - reflexivity.
  - exact ref_sqrt_proper.
  - exact ref_sqrt_nonneg.
  - reflexivity.
  - vm_compute. reflexivity.
  - apply Nat.leb_le. vm_compute. reflexivity.
Defined.

Lemma single_instrument_skips_aggregation_witness :
  fst (calculate_monte_carlo_var (L := Ref.ewma_lib) (mkEngine 42)
         Sample.short_book Sample.returns3 10 42%Z)
  = fst (calculate_monte_carlo_var (L := Ref.ewma_lib) (mkEngine 42)
           Sample.book Sample.returns3 10 42%Z).
Proof.
  unfold Sample.returns3.
  rewrite (proj1 (single_instrument_skips_aggregation (L := Ref.ewma_lib)
             (mkEngine 42) Sample.short_book "BRENT" Sample.three 10 42%Z
             85000 eq_refl)).
  rewrite (proj1 (single_instrument_skips_aggregation (L := Ref.ewma_lib)
             (mkEngine 42) Sample.book "BRENT" Sample.three 10 42%Z
             85000 eq_refl)).
  reflexivity.
Defined.

(** * Further properties of the engine *)

(** ** Portfolio value *)

Lemma portfolio_value_loop_json (hs : list Holding) :
  forall acc,
    portfolio_value_loop (map json hs) acc
    = Ok (fold_left (fun a h => a + exposure h) hs acc).
Proof.
  induction hs as [| h hs IH]; intros acc; [reflexivity |].
  cbn [map portfolio_value_loop]. rewrite position_value_json.
  cbn [bind]. rewrite IH. reflexivity.
Qed.

Lemma fold_exposure_total (hs : list Holding) :
  forall acc,
    fold_left (fun a h => a + exposure h) hs acc
    == acc + total (map exposure hs).
Proof.
  induction hs as [| h hs IH]; intros acc; simpl; [ring |].
  rewrite IH. ring.
Qed.

Lemma portfolio_value_json (hs : list Holding) :
  exists v,
    _calculate_portfolio_value (map json hs) = Ok v /\
    v == total (map exposure hs).
Proof.
  eexists. split; [apply portfolio_value_loop_json |].
  rewrite fold_exposure_total. ring.
Qed.

Lemma total_perm (l l' : list Q) : Permutation l l' -> total l == total l'.
Proof.
  intros P. induction P; simpl.
  - reflexivity.
  - rewrite IHP. reflexivity.
  - ring.
  - rewrite IHP1. exact IHP2.
Qed.

(** X1. The portfolio value of complete positions is the sum of their
    exposures [|quantity * lotSize * currentPrice|]; it does not depend
    on the order of the book. *)
Theorem portfolio_value_order_independent (hs hs' : list Holding) :
  Permutation hs hs' ->
  exists v v',
    _calculate_portfolio_value (map json hs) = Ok v /\
    _calculate_portfolio_value (map json hs') = Ok v' /\
    v == total (map exposure hs) /\ v == v'.
Proof.
  intros P.
  destruct (portfolio_value_json hs) as [v [E H]].
  destruct (portfolio_value_json hs') as [v' [E' H']].
  exists v, v'. repeat split; try assumption.
  rewrite H, H'. apply total_perm. apply Permutation_map. exact P.
Qed.

Lemma portfolio_value_order_independent_witness :
  exists v v',
    _calculate_portfolio_value
      (map json [mkHolding "BRENT" 1000 1 85 "Long";
                 mkHolding "WTI" (- 500) 10 80 "Short"]) = Ok v /\
    _calculate_portfolio_value
      (map json [mkHolding "WTI" (- 500) 10 80 "Short";
                 mkHolding "BRENT" 1000 1 85 "Long"]) = Ok v' /\
    v == total (map exposure [mkHolding "BRENT" 1000 1 85 "Long";
                              mkHolding "WTI" (- 500) 10 80 "Short"]) /\
    v == v'.
Proof.
  apply portfolio_value_order_independent. apply perm_swap.
Defined.

Lemma position_value_ok_iff (pos : Position) :
  (exists v, position_value pos = Ok v) <-> has_value_keys pos.
Proof.
  unfold position_value, has_value_keys, Py.getitem, bind.
  destruct (quantity pos), (lotSize pos), (currentPrice pos); split;
    try (intros [v E]; discriminate);
    try (intros [A [B C]]; congruence);
    try (intros _; repeat split; discriminate);
    try (intros _; eauto).
Qed.

Lemma position_value_raises (pos : Position) (e : exn) :
  position_value pos = Raise e ->
  e = KeyError "quantity" \/ e = KeyError "lotSize"
  \/ e = KeyError "currentPrice".
Proof.
  unfold position_value, Py.getitem, bind.
  destruct (quantity pos), (lotSize pos), (currentPrice pos); intros E;
    try discriminate; injection E as <-; auto.
Qed.

Lemma portfolio_value_loop_ok_iff (positions : list Position) :
  forall acc,
    (exists v, portfolio_value_loop positions acc = Ok v)
    <-> Forall has_value_keys positions.
Proof.
  induction positions as [| pos rest IH]; intros acc; cbn [portfolio_value_loop].
  - split; [constructor | eauto].
  - destruct (position_value pos) as [x |] eqn:P; cbn [bind].
    + rewrite IH. split.
      * intros H. constructor; [| exact H].
        apply position_value_ok_iff. eauto.
      * intros H. inversion H. assumption.
    + split; [intros [v E]; discriminate |].
      intros H. inversion H as [| ? ? K _]; subst.
      apply position_value_ok_iff in K. destruct K as [v K]. congruence.
Qed.

Lemma portfolio_value_loop_raises (positions : list Position) :
  forall acc e,
    portfolio_value_loop positions acc = Raise e ->
    e = KeyError "quantity" \/ e = KeyError "lotSize"
    \/ e = KeyError "currentPrice".
Proof.
  induction positions as [| pos rest IH]; intros acc e;
    cbn [portfolio_value_loop]; [discriminate |].
  destruct (position_value pos) as [x |] eqn:P; cbn [bind].
  - apply IH.
  - intros E. apply (position_value_raises pos). congruence.
Qed.

(** X2. [_calculate_portfolio_value] returns exactly when every position has
    the keys [quantity], [lotSize] and [currentPrice] (it never reads
    [product] or [position]); otherwise it raises [KeyError] on one of
    these three keys. *)
Theorem portfolio_value_raises_on_missing_key (positions : list Position) :
  ((exists v, _calculate_portfolio_value positions = Ok v)
   <-> Forall has_value_keys positions) /\
  (forall e,
     _calculate_portfolio_value positions = Raise e ->
     e = KeyError "quantity" \/ e = KeyError "lotSize"
     \/ e = KeyError "currentPrice").
Proof.
  split.
  - apply portfolio_value_loop_ok_iff.
  - apply portfolio_value_loop_raises.
Qed.

(** ** The weighted return series *)

Lemma add_length (a b : list Q) :
  length (Np.add a b) = Nat.min (length a) (length b).
Proof.
  revert b. induction a as [| x a IH]; intros [| y b]; simpl; auto.
Qed.

Lemma sub_length (a b : list Q) :
  length (Np.sub a b) = Nat.min (length a) (length b).
Proof.
  revert b. induction a as [| x a IH]; intros [| y b]; simpl; auto.
Qed.

Lemma scale_length (c : Q) (a : list Q) : length (Np.scale c a) = length a.
Proof. apply length_map. Qed.

Lemma neg_length (a : list Q) : length (Np.neg a) = length a.
Proof. apply length_map. Qed.

Lemma zeros_length (n : nat) : length (Np.zeros n) = n.
Proof. apply repeat_length. Qed.

Lemma nth_zeros (n j : nat) : nth j (Np.zeros n) 0 = 0.
Proof.
  unfold Np.zeros. revert j. induction n as [| n IH]; intros [| j]; simpl; auto.
Qed.

Lemma nth_add (a b : list Q) (j : nat) :
  (j < length a)%nat -> (j < length b)%nat ->
  nth j (Np.add a b) 0 = nth j a 0 + nth j b 0.
Proof.
  revert b j. induction a as [| x a IH]; intros [| y b] [| j]; simpl;
    intros Ha Hb; try lia; [reflexivity |].
  apply IH; lia.
Qed.

Lemma nth_sub (a b : list Q) (j : nat) :
  (j < length a)%nat -> (j < length b)%nat ->
  nth j (Np.sub a b) 0 = nth j a 0 - nth j b 0.
Proof.
  revert b j. induction a as [| x a IH]; intros [| y b] [| j]; simpl;
    intros Ha Hb; try lia; [reflexivity |].
  apply IH; lia.
Qed.

Lemma nth_scale (c : Q) (a : list Q) (j : nat) :
  (j < length a)%nat -> nth j (Np.scale c a) 0 = c * nth j a 0.
Proof.
  intros H. unfold Np.scale.
  rewrite (nth_indep _ 0 ((fun x => c * x) 0)) by (rewrite length_map; exact H).
  apply map_nth.
Qed.

Lemma nth_neg (a : list Q) (j : nat) :
  (j < length a)%nat -> nth j (Np.neg a) 0 = - nth j a 0.
Proof.
  intros H. unfold Np.neg.
  rewrite (nth_indep _ 0 (- 0)) by (rewrite length_map; exact H).
  apply map_nth.
Qed.

Lemma nth_firstn_lt (n j : nat) (l : list Q) :
  (j < n)%nat -> nth j (firstn n l) 0 = nth j l 0.
Proof.
  revert j l. induction n as [| n IH]; intros j l H; [lia |].
  destruct l as [| x l]; [destruct j; reflexivity |].
  destruct j as [| j]; [reflexivity |]. simpl. apply IH. lia.
Qed.

Lemma min_len_le_first {A : Type} (rest : list (list A)) :
  forall m, (fold_left (fun m r => Nat.min m (length r)) rest m <= m)%nat.
Proof.
  induction rest as [| r rest IH]; intros m; simpl; [lia |].
  specialize (IH (Nat.min m (length r))). lia.
Qed.

Lemma min_len_le_in {A : Type} (rest : list (list A)) (s : list A) :
  In s rest ->
  forall m, (fold_left (fun m r => Nat.min m (length r)) rest m <= length s)%nat.
Proof.
  induction rest as [| r rest IH]; intros H m; simpl; [destruct H |].
  destruct H as [-> | H].
  - pose proof (min_len_le_first rest (Nat.min m (length s))). lia.
  - apply IH. exact H.
Qed.

Lemma dict_get_in_values {A : Type} (d : list (string * A)) (p : string)
  (v : A) :
  Py.dict_get d p = Some v -> In v (Py.dict_values d).
Proof.
  induction d as [| [k w] d IH]; simpl; [discriminate |].
  destruct (String.eqb k p).
  - intros E. left. congruence.
  - intros E. right. apply IH. exact E.
Qed.

(** The common length is at most the length of every series of the
    map. *)
Lemma min_length_le (returns : Returns) (p : string) (series : list Q) :
  Py.dict_get returns p = Some series ->
  (min_length returns <= length series)%nat.
Proof.
  intros E. apply dict_get_in_values in E. unfold min_length.
  destruct (Py.dict_values returns) as [| first rest]; [destruct E |].
  unfold Py.min_len. destruct E as [-> | E].
  - apply min_len_le_first.
  - apply min_len_le_in. exact E.
Qed.

Lemma portfolio_returns_loop_keeps_length (returns : Returns) (total_value : Q)
  (positions : list Position) :
  forall acc r,
    length acc = min_length returns ->
    portfolio_returns_loop returns (min_length returns) total_value
      positions acc = Ok r ->
    length r = min_length returns.
Proof.
  induction positions as [| pos rest IH]; intros acc r Hacc;
    cbn [portfolio_returns_loop].
  - intros E. apply ok_inj in E. congruence.
  - destruct (Py.getitem "product" (product pos)) as [p |]; cbn [bind];
      [| discriminate].
    destruct (Py.dict_get returns p) as [series |] eqn:D; [| apply IH; exact Hacc].
    destruct (position_value pos) as [x |]; cbn [bind]; [| discriminate].
    destruct (Py.getitem "position" (position pos)) as [side |]; cbn [bind];
      [| discriminate].
    apply IH.
    pose proof (min_length_le returns p series D) as Hm.
    rewrite add_length, scale_length, Hacc.
    destruct (String.eqb side "Short");
      rewrite ?neg_length, length_firstn; lia.
Qed.

(** X3. Whenever it returns, the weighted return series has the length of
    the shortest series of [returns], counting the instruments that no
    position holds; in particular it is empty when [returns] is empty or
    has an empty series. *)
Theorem weighted_returns_length (positions : list Position)
  (returns : Returns) (r : list Q) :
  _calculate_portfolio_returns positions returns = Ok r ->
  length r = min_length returns.
Proof.
  unfold _calculate_portfolio_returns.
  destruct returns as [| kv rest] eqn:R; [intros E; apply ok_inj in E; subst; reflexivity |].
  rewrite <- R.
  destruct (min_length returns =? 0)%nat eqn:Z.
  - apply Nat.eqb_eq in Z. intros E. apply ok_inj in E. subst r. simpl. lia.
  - destruct (_calculate_portfolio_value positions) as [v |]; cbn [bind];
      [| discriminate].
    destruct (Qeq_bool v 0).
    + intros E. apply ok_inj in E. subst r. apply zeros_length.
    + apply portfolio_returns_loop_keeps_length. apply zeros_length.
Qed.

Lemma weighted_returns_length_witness :
  length Sample.series_two = min_length Sample.returns_two.
Proof.
  apply (weighted_returns_length Sample.book Sample.returns_two).
  vm_compute. reflexivity.
Defined.

Lemma portfolio_returns_loop_json (returns : Returns) (n : nat)
  (total_value : Q) (hs : list Holding) :
  (forall p series,
     Py.dict_get returns p = Some series -> (n <= length series)%nat) ->
  forall acc,
    length acc = n ->
    exists r,
      portfolio_returns_loop returns n total_value (map json hs) acc = Ok r /\
      length r = n /\
      forall j, (j < n)%nat ->
        nth j r 0
        == nth j acc 0 + total (map (weighted_term returns total_value j) hs).
Proof.
  intros Hn. induction hs as [| h hs IH]; intros acc Hacc.
  - exists acc. repeat split; auto. intros j _. simpl. ring.
  - cbn [map portfolio_returns_loop json full_position product position
         Py.getitem bind].
    destruct (Py.dict_get returns (h_product h)) as [series |] eqn:D.
    + change (position_value
                (mkPosition (Some (h_product h)) (Some (h_quantity h))
                   (Some (h_lotSize h)) (Some (h_currentPrice h))
                   (Some (h_side h))))
        with (Ok (exposure h)).
      cbn [bind].
      pose proof (Hn _ _ D) as Hs.
      set (pr := if String.eqb (h_side h) "Short"
                 then Np.neg (firstn n series) else firstn n series).
      assert (Lpr : length pr = n).
      { unfold pr. destruct (String.eqb (h_side h) "Short");
          rewrite ?neg_length, length_firstn; lia. }
      destruct (IH (Np.add acc (Np.scale (exposure h / total_value) pr)))
        as [r [E [Lr Hr]]].
      { rewrite add_length, scale_length. lia. }
      exists r. repeat split; auto. intros j Hj.
      rewrite (Hr j Hj), nth_add, nth_scale
        by (rewrite ?scale_length; lia).
      cbn [map total]. unfold weighted_term at 2. rewrite D.
      unfold aggregation_sign, pr.
      destruct (String.eqb (h_side h) "Short").
      * rewrite nth_neg, nth_firstn_lt by (rewrite ?length_firstn; lia). ring.
      * rewrite nth_firstn_lt by lia. ring.
    + destruct (IH acc Hacc) as [r [E [Lr Hr]]].
      exists r. repeat split; auto. intros j Hj.
      rewrite (Hr j Hj). cbn [map total]. unfold weighted_term at 2.
      rewrite D. ring.
Qed.

Lemma weighted_returns_json_ok (hs : list Holding) (returns : Returns) :
  exists r, _calculate_portfolio_returns (map json hs) returns = Ok r.
Proof.
  unfold _calculate_portfolio_returns.
  destruct returns as [| kv rest] eqn:R; [eauto |]. rewrite <- R.
  destruct (min_length returns =? 0)%nat; [eauto |].
  destruct (portfolio_value_json hs) as [v [E _]]. rewrite E. cbn [bind].
  destruct (Qeq_bool v 0); [eauto |].
  destruct (portfolio_returns_loop_json returns (min_length returns) v hs
              (min_length_le returns) (Np.zeros (min_length returns))
              (zeros_length _)) as [r [Er _]].
  eauto.
Qed.

Lemma weighted_series_entries (hs : list Holding) (returns : Returns)
  (v : Q) :
  _calculate_portfolio_value (map json hs) = Ok v ->
  ~ v == 0 ->
  (0 < min_length returns)%nat ->
  exists r,
    _calculate_portfolio_returns (map json hs) returns = Ok r /\
    length r = min_length returns /\
    forall j, (j < min_length returns)%nat ->
      nth j r 0 == total (map (weighted_term returns v j) hs).
Proof.
  intros Hv Hz Hn.
  destruct returns as [| kv rest]; [cbv in Hn; lia |].
  unfold _calculate_portfolio_returns. cbv beta iota.
  set (returns := kv :: rest) in *.
  destruct (min_length returns =? 0)%nat eqn:Z;
    [apply Nat.eqb_eq in Z; lia |].
  rewrite Hv. cbn [bind].
  destruct (Qeq_bool v 0) eqn:Q0; [apply Qeq_bool_iff in Q0; contradiction |].
  destruct (portfolio_returns_loop_json returns (min_length returns) v hs
              (min_length_le returns) (Np.zeros (min_length returns))
              (zeros_length _)) as [r [Er [Lr Hr]]].
  exists r. repeat split; auto. intros j Hj.
  rewrite (Hr j Hj), nth_zeros. ring.
Qed.

(** X4. For complete positions with a non-zero total exposure and a common
    length [n > 0], entry [j] of the weighted return series is the sum
    over the positions whose product is in [returns] of
    [exposure / total * sign * series[j]], with [sign = -1] for [Short]
    and [+1] otherwise; positions without a series add nothing. *)
Theorem weighted_returns_formula (hs : list Holding) (returns : Returns)
  (v : Q) :
  _calculate_portfolio_value (map json hs) = Ok v ->
  ~ v == 0 ->
  (0 < min_length returns)%nat ->
  exists r,
    _calculate_portfolio_returns (map json hs) returns = Ok r /\
    length r = min_length returns /\
    forall j, (j < min_length returns)%nat ->
      nth j r 0 == total (map (weighted_term returns v j) hs).
Proof.
  apply weighted_series_entries.
Qed.

Lemma weighted_returns_formula_witness :
  exists r,
    _calculate_portfolio_returns
      (map json [mkHolding "BRENT" 1000 1 85 "Short"]) Sample.returns_two
      = Ok r /\
    length r = min_length Sample.returns_two /\
    forall j, (j < min_length Sample.returns_two)%nat ->
      nth j r 0
      == total (map (weighted_term Sample.returns_two 85000 j)
                  [mkHolding "BRENT" 1000 1 85 "Short"]).
Proof.
  apply weighted_returns_formula.
  - reflexivity.
  - discriminate.
  - vm_compute. lia.
Defined.

(** ** Reading of the side and of the keys *)

Lemma stress_loop_side (current_prices : Prices) (s : Q) (hs : list Holding) :
  forall acc,
    stress_loop current_prices s (map json hs) acc
    = stress_loop current_prices s (map json (map read_by_stress hs)) acc.
Proof.
  induction hs as [| h hs IH]; intros acc; [reflexivity |].
  cbn [map stress_loop json full_position product position quantity lotSize
       Py.getitem bind read_by_stress with_side h_product h_quantity h_lotSize
       h_side].
  destruct (Py.dict_get current_prices (h_product h)); [| apply IH].
  rewrite IH.
  destruct (String.eqb (h_side h) "Long"); reflexivity.
Qed.

Lemma portfolio_value_loop_side (f : Holding -> string) (hs : list Holding) :
  forall acc,
    portfolio_value_loop (map json (map (fun h => with_side h (f h)) hs)) acc
    = portfolio_value_loop (map json hs) acc.
Proof.
  induction hs as [| h hs IH]; intros acc; [reflexivity |].
  cbn [map portfolio_value_loop]. rewrite !position_value_json.
  cbn [bind]. rewrite IH. reflexivity.
Qed.

Lemma portfolio_returns_loop_side (returns : Returns) (n : nat) (v : Q)
  (hs : list Holding) :
  forall acc,
    portfolio_returns_loop returns n v (map json hs) acc
    = portfolio_returns_loop returns n v
        (map json (map read_by_aggregator hs)) acc.
Proof.
  induction hs as [| h hs IH]; intros acc; [reflexivity |].
  cbn [map portfolio_returns_loop json full_position product position
       Py.getitem bind read_by_aggregator with_side h_product h_side].
  destruct (Py.dict_get returns (h_product h)); [| apply IH].
  rewrite !position_value_json.
  change (exposure (read_by_aggregator h)) with (exposure h).
  cbn [bind]. rewrite IH.
  destruct (String.eqb (h_side h) "Short"); reflexivity.
Qed.

(** X5. The two evaluators read the side differently.  The stress impact
    treats every side other than ["Long"] as short; the weighted return
    series treats every side other than ["Short"] as long.  A position
    whose side is spelled otherwise (["long"], ["Buy"], ...) is therefore
    short under stress and long in the VaR series. *)
Theorem side_is_read_differently (hs : list Holding)
  (current_prices : Prices) (returns : Returns) (s : Q) :
  _calculate_stress_impact (map json hs) current_prices s
  = _calculate_stress_impact (map json (map read_by_stress hs))
      current_prices s /\
  _calculate_portfolio_returns (map json hs) returns
  = _calculate_portfolio_returns (map json (map read_by_aggregator hs))
      returns /\
  (forall h, h_side h <> "Long" -> h_side h <> "Short" ->
     h_side (read_by_stress h) = "Short" /\
     h_side (read_by_aggregator h) = "Long").
Proof.
  split; [apply stress_loop_side |]. split.
  - unfold _calculate_portfolio_returns, _calculate_portfolio_value.
    unfold read_by_aggregator at 1.
    rewrite (portfolio_value_loop_side
               (fun h => if String.eqb (h_side h) "Short"
                         then "Short" else "Long")).
    destruct returns as [| kv rest]; [reflexivity |].
    destruct (min_length (kv :: rest) =? 0)%nat; [reflexivity |].
    destruct (portfolio_value_loop (map json hs) 0) as [v |]; cbn [bind];
      [| reflexivity].
    destruct (Qeq_bool v 0); [reflexivity |].
    apply portfolio_returns_loop_side.
  - intros h HL HS. unfold read_by_stress, read_by_aggregator, with_side.
    cbn [h_side].
    apply String.eqb_neq in HL, HS. rewrite HL, HS. auto.
Qed.

Lemma side_is_read_differently_witness :
  h_side (read_by_stress (mkHolding "BRENT" 1000 1 85 "long")) = "Short" /\
  h_side (read_by_aggregator (mkHolding "BRENT" 1000 1 85 "long")) = "Long".
Proof.
  apply (proj2 (proj2 (side_is_read_differently [] [] [] 0))
           (mkHolding "BRENT" 1000 1 85 "long")); discriminate.
Defined.

(** ** Linearity of the stress impact *)

Lemma stress_total_linear (current_prices : Prices) (a b s1 s2 : Q)
  (hs : list Holding) :
  stress_total current_prices (a * s1 + b * s2) hs
  == a * stress_total current_prices s1 hs
     + b * stress_total current_prices s2 hs.
Proof.
  unfold stress_total. induction hs as [| h hs IH]; simpl; [ring |].
  rewrite IH. unfold stress_term.
  destruct (Py.dict_get current_prices (h_product h)); ring.
Qed.

Lemma stress_total_app (current_prices : Prices) (s : Q)
  (hs1 hs2 : list Holding) :
  stress_total current_prices s (hs1 ++ hs2)
  == stress_total current_prices s hs1 + stress_total current_prices s hs2.
Proof.
  unfold stress_total. induction hs1 as [| h hs1 IH]; simpl; [ring |].
  rewrite IH. ring.
Qed.

(** X6. The stress impact of complete positions is linear in the shock and
    additive over books: the impact under [a * s1 + b * s2] is
    [a * impact(s1) + b * impact(s2)] (so twice the shock doubles the
    impact and the opposite shock negates it), and the impact of two
    books together is the sum of their impacts. *)
Theorem stress_impact_linear (hs hs' : list Holding)
  (current_prices : Prices) (a b s1 s2 : Q) :
  exists t1 t2 t t' u,
    _calculate_stress_impact (map json hs) current_prices s1 = Ok t1 /\
    _calculate_stress_impact (map json hs) current_prices s2 = Ok t2 /\
    _calculate_stress_impact (map json hs) current_prices (a * s1 + b * s2)
      = Ok t /\
    t == a * t1 + b * t2 /\
    _calculate_stress_impact (map json hs') current_prices s1 = Ok t' /\
    _calculate_stress_impact (map json (hs ++ hs')) current_prices s1
      = Ok u /\
    u == t1 + t'.
Proof.
  destruct (stress_impact_json current_prices s1 hs) as [t1 [E1 H1]].
  destruct (stress_impact_json current_prices s2 hs) as [t2 [E2 H2]].
  destruct (stress_impact_json current_prices (a * s1 + b * s2) hs)
    as [t [E H]].
  destruct (stress_impact_json current_prices s1 hs') as [t' [E' H']].
  destruct (stress_impact_json current_prices s1 (hs ++ hs')) as [u [Eu Hu]].
  exists t1, t2, t, t', u. repeat split; try assumption.
  - rewrite H, H1, H2. apply stress_total_linear.
  - rewrite Hu, H1, H'. apply stress_total_app.
Qed.

Lemma stress_loop_ok_iff (current_prices : Prices) (s : Q)
  (positions : list Position) :
  forall acc,
    (exists t, stress_loop current_prices s positions acc = Ok t)
    <-> Forall (stress_readable current_prices) positions.
Proof.
  induction positions as [| pos rest IH]; intros acc; cbn [stress_loop].
  - split; [constructor | eauto].
  - rewrite Forall_cons_iff.
    set (F := Forall (stress_readable current_prices) rest) in *.
    unfold stress_readable, Py.getitem.
    destruct (product pos) as [p |]; cbn [bind];
      [| split; [intros [t E]; discriminate | intros [K _]; contradiction]].
    destruct (Py.dict_get current_prices p) as [price |];
      [| rewrite IH; tauto].
    destruct (position pos) as [side |]; cbn [bind];
      [| split; [intros [t E]; discriminate
                | intros [[K1 [K2 K3]] _]; congruence]].
    destruct (quantity pos) as [q |]; cbn [bind];
      [| split; [intros [t E]; discriminate
                | intros [[K1 [K2 K3]] _]; congruence]].
    destruct (lotSize pos) as [l |]; cbn [bind];
      [| split; [intros [t E]; discriminate
                | intros [[K1 [K2 K3]] _]; congruence]].
    rewrite IH. split; [| tauto].
    intros H. split; [| exact H]. repeat split; discriminate.
Qed.

(** X7. [_calculate_stress_impact] returns exactly when every position has
    the key [product] and, if that product has a current price, also
    [position], [quantity] and [lotSize].  The other keys of a position
    whose product has no price are never read, and [currentPrice] is
    never read at all. *)
Theorem stress_impact_raises_on_missing_key (positions : list Position)
  (current_prices : Prices) (s : Q) :
  (exists t, _calculate_stress_impact positions current_prices s = Ok t)
  <-> Forall (stress_readable current_prices) positions.
Proof.
  apply stress_loop_ok_iff.
Qed.

(** ** Results of the two VaR methods *)

Lemma historical_var_nonneg (r : list Q) (v : Q) (vr : VaRResult) :
  _historical_var r v = Ok vr -> (0 <= var95 vr)%Z /\ (0 <= var99 vr)%Z.
Proof.
  destruct r as [| x r].
  - intros E. apply ok_inj in E. subst vr. simpl. lia.
  - rewrite historical_var_nonempty by discriminate.
    intros E. apply ok_inj in E. subst vr. cbn [var95 var99].
    split; apply round_nonneg, Qabs_nonneg.
Qed.

Lemma var_of_simulation_nonneg (sim : list Q) (v : Q) :
  (0 <= var95 (var_of_simulation sim v))%Z /\
  (0 <= var99 (var_of_simulation sim v))%Z.
Proof.
  unfold var_of_simulation. cbn [var95 var99].
  split; apply round_nonneg, Qabs_nonneg.
Qed.

Section Results.

Context {L : NumLib}.

Lemma garch_model_nonneg (r : list Q) (v : Q) (vr : VaRResult) :
  garch_model r v = Ok vr -> (0 <= var95 vr)%Z /\ (0 <= var99 vr)%Z.
Proof.
  unfold garch_model, garch_fit_t, garch_fit_normal, _simplified_garch, bind.
  destruct ARCH_AVAILABLE.
  - destruct (arch_fit StudentT _) as [res |].
    + destruct (params_nu res); intros E; apply ok_inj in E; subst vr;
        cbn [fst snd var95 var99]; split; apply round_nonneg, Qabs_nonneg.
    + destruct (arch_fit Normal _) as [res |]; [| discriminate].
      intros E; apply ok_inj in E; subst vr; cbn [fst snd var95 var99].
      split; apply round_nonneg, Qabs_nonneg.
  - intros E; apply ok_inj in E; subst vr; cbn [fst snd var95 var99].
    split; apply round_nonneg, Qabs_nonneg.
Qed.

Lemma garch_needs_preliminaries (self : RiskEngine)
  (positions : list Position) (returns : Returns) (vr : VaRResult) :
  calculate_garch_var self positions returns = Ok vr ->
  exists v r,
    _calculate_portfolio_value positions = Ok v /\
    _calculate_portfolio_returns positions returns = Ok r.
Proof.
  unfold calculate_garch_var, garch_try.
  destruct (_calculate_portfolio_value positions) as [v |]; [| discriminate].
  destruct (_calculate_portfolio_returns positions returns) as [r |];
    [| discriminate].
  eauto.
Qed.

Lemma monte_carlo_needs_preliminaries (self : RiskEngine)
  (positions : list Position) (returns : Returns) (simulations : nat)
  (g : rng_state) (vr : VaRResult) :
  fst (calculate_monte_carlo_var self positions returns simulations g)
    = Ok vr ->
  exists v, _calculate_portfolio_value positions = Ok v.
Proof.
  unfold calculate_monte_carlo_var, monte_carlo_try.
  destruct (_calculate_portfolio_value positions) as [v |]; [eauto |].
  cbn [fst]. unfold monte_carlo_except.
  destruct (_calculate_portfolio_returns positions returns); discriminate.
Qed.

Lemma monte_carlo_try_nonneg (positions : list Position) (returns : Returns)
  (simulations : nat) (g : rng_state) (vr : VaRResult) :
  snd (fst (monte_carlo_try positions returns simulations g)) = Ok vr ->
  (0 <= var95 vr)%Z /\ (0 <= var99 vr)%Z.
Proof.
  unfold monte_carlo_try.
  destruct (_calculate_portfolio_value positions) as [v |]; [| discriminate].
  destruct (length (Py.dict_keys returns) =? 0)%nat.
  - cbn [fst snd]. intros E. apply ok_inj in E. subst vr. simpl. lia.
  - destruct (returns_columns _ _ _); [| discriminate].
    destruct (simulate_portfolio_returns _ _ _ _ _ _) as [[sim |] g'];
      cbn [fst snd]; [| discriminate].
    intros E. apply ok_inj in E. subst vr. apply var_of_simulation_nonneg.
Qed.

(** X8. For any numbers that the libraries return (fits, quantiles,
    decompositions, draws), a VaR result returned by
    [calculate_garch_var] has both figures non-negative, and so has one
    returned by [calculate_monte_carlo_var] on a regular sample: no
    instrument, or at least two observations of every instrument and at
    least one draw. *)
Theorem var_figures_nonnegative (self : RiskEngine)
  (positions : list Position) (returns : Returns) (simulations : nat)
  (g : rng_state) :
  (forall vr,
     calculate_garch_var self positions returns = Ok vr ->
     (0 <= var95 vr)%Z /\ (0 <= var99 vr)%Z) /\
  (forall vr,
     regular_sample returns simulations ->
     fst (calculate_monte_carlo_var self positions returns simulations g)
       = Ok vr ->
     (0 <= var95 vr)%Z /\ (0 <= var99 vr)%Z).
Proof.
  split; [intros vr E | intros vr _ E].
  - destruct (garch_needs_preliminaries _ _ _ _ E) as [v [r [Hv Hr]]].
    rewrite (garch_after_preliminaries self _ _ _ _ Hv Hr) in E.
    destruct (length r <? 100)%nat;
      [apply (historical_var_nonneg r v); exact E |].
    destruct (garch_model r v) as [vr' |] eqn:G.
    + apply ok_inj in E. subst vr'. apply (garch_model_nonneg r v). exact G.
    + apply (historical_var_nonneg r v). exact E.
  - destruct (monte_carlo_needs_preliminaries _ _ _ _ _ _ E) as [v Hv].
    unfold calculate_monte_carlo_var in E.
    pose proof (monte_carlo_try_nonneg positions returns simulations g) as T.
    destruct (monte_carlo_try positions returns simulations g)
      as [[locals res] g'].
    cbn [fst snd] in *. destruct res as [vr' |]; cbn [fst] in E.
    + apply T. exact E.
    + unfold monte_carlo_except in E.
      destruct (_calculate_portfolio_returns positions returns) as [r |];
        cbn [bind] in E; [| discriminate].
      destruct (Py.local "portfolio_value" (m_portfolio_value locals))
        as [v' |]; cbn [bind] in E; [| discriminate].
      apply (historical_var_nonneg r v'). exact E.
Qed.

Lemma json_positions_ok (self : RiskEngine)
  (hs : list Holding) (returns : Returns) (simulations : nat)
  (g : rng_state) :
  exists vr vr',
    calculate_garch_var self (map json hs) returns = Ok vr /\
    fst (calculate_monte_carlo_var self (map json hs) returns simulations g)
      = Ok vr'.
Proof.
  destruct (portfolio_value_json hs) as [v [Hv _]].
  destruct (weighted_returns_json_ok hs returns) as [r Hr].
  destruct (historical_var_total r v) as [h Hh].
  rewrite (garch_after_preliminaries self _ _ _ _ Hv Hr).
  rewrite (monte_carlo_after_preliminaries self _ _ simulations g _ _ Hv Hr).
  rewrite Hh.
  destruct (length r <? 100)%nat;
    destruct (snd (fst (monte_carlo_try (map json hs) returns simulations g)));
    try destruct (garch_model r v); eauto.
Qed.

(** X9. With every key present in every position, neither VaR method
    raises, whatever the map of returns is and whatever the numerical
    libraries do (fits that raise, matrices that cannot be decomposed). *)
Theorem complete_positions_never_raise (self : RiskEngine)
  (hs : list Holding) (returns : Returns) (simulations : nat)
  (g : rng_state) :
  exists vr vr',
    calculate_garch_var self (map json hs) returns = Ok vr /\
    fst (calculate_monte_carlo_var self (map json hs) returns simulations g)
      = Ok vr'.
Proof.
  apply json_positions_ok.
Qed.

(** X10. The fitting chain of [calculate_garch_var] when arch is available
    and the series has at least 100 observations.  The series handed to
    the fit is the weighted series in percent.  A Student-t fit that
    succeeds decides the result, through the t quantiles at its [nu];
    only when it raises is a Normal fit attempted, which then decides
    through the Normal quantiles; when both raise the result is the
    Historical VaR. *)
Theorem garch_fit_chain (self : RiskEngine) (positions : list Position)
  (returns : Returns) (v : Q) (r : list Q) :
  ARCH_AVAILABLE = true ->
  _calculate_portfolio_value positions = Ok v ->
  _calculate_portfolio_returns positions returns = Ok r ->
  (100 <= length r)%nat ->
  let series := map (fun x => x * 100) r in
  let figures (q95 q99 variance : Q) :=
    mkVaR (Np.round (Qabs (q95 * (np_sqrt variance / 100) * v)))
          (Np.round (Qabs (q99 * (np_sqrt variance / 100) * v))) in
  (forall res nu,
     arch_fit StudentT series = Ok res -> params_nu res = Some nu ->
     calculate_garch_var self positions returns
     = Ok (figures (t_ppf 0.05 nu) (t_ppf 0.01 nu) (forecast_variance res))) /\
  (forall e res,
     arch_fit StudentT series = Raise e -> arch_fit Normal series = Ok res ->
     calculate_garch_var self positions returns
     = Ok (figures (norm_ppf 0.05) (norm_ppf 0.01) (forecast_variance res))) /\
  (forall e e',
     arch_fit StudentT series = Raise e -> arch_fit Normal series = Raise e' ->
     calculate_garch_var self positions returns = _historical_var r v).
Proof.
  intros Ha Hv Hr Hn series figures.
  assert (N : (length r <? 100)%nat = false) by (apply Nat.ltb_ge; exact Hn).
  rewrite (garch_after_preliminaries self _ _ _ _ Hv Hr), N.
  unfold garch_model, garch_fit_t, garch_fit_normal. rewrite Ha.
  fold series.
  split; [| split].
  - intros res nu E1 E2. rewrite E1. cbn [bind]. rewrite E2. reflexivity.
  - intros e res E1 E2. rewrite E1, E2. reflexivity.
  - intros e e' E1 E2. rewrite E1, E2. reflexivity.
Qed.

End Results.

Lemma var_figures_nonnegative_witness :
  ((0 <= var95 (mkVaR 3426 5720))%Z /\ (0 <= var99 (mkVaR 3426 5720))%Z) /\
  ((0 <= var95 (mkVaR 1322 1943))%Z /\ (0 <= var99 (mkVaR 1322 1943))%Z).
Proof.
  split.
  - apply (proj1 (var_figures_nonnegative (L := Ref.fitted_lib) (mkEngine 42)
                    Sample.book Sample.returns100 10 42%Z)).
    vm_compute. reflexivity.
  - apply (proj2 (var_figures_nonnegative (L := Ref.ewma_lib) (mkEngine 42)
                    Sample.book Sample.returns3 10 42%Z)).
    + right. split; [apply Nat.leb_le; reflexivity | lia].
    + vm_compute. reflexivity.
Defined.

Lemma garch_fit_chain_witness :
  calculate_garch_var (L := Ref.fitted_lib) (mkEngine 42) Sample.book
    Sample.returns100 = Ok (mkVaR 3426 5720) /\
  calculate_garch_var (L := Ref.arch_lib) (mkEngine 42) Sample.book
    Sample.returns100 = _historical_var Sample.series100 85000.
Proof.
  split.
  - refine (eq_trans
              (proj1 (garch_fit_chain (L := Ref.fitted_lib) (mkEngine 42)
                        Sample.book Sample.returns100 85000 Sample.series100
                        eq_refl eq_refl _ _)
                 (mkArch 4 (Some 5)) 5 eq_refl eq_refl) _).
    + vm_compute. reflexivity.
    + apply Nat.leb_le. vm_compute. reflexivity.
    + vm_compute. reflexivity.
  - refine (proj2 (proj2 (garch_fit_chain (L := Ref.arch_lib) (mkEngine 42)
                        Sample.book Sample.returns100 85000 Sample.series100
                        eq_refl eq_refl _ _))
                 (LibraryError "optimizer did not converge")
                 (LibraryError "optimizer did not converge") eq_refl eq_refl).
    + vm_compute. reflexivity.
    + apply Nat.leb_le. vm_compute. reflexivity.
Defined.

(** ** Aggregation of simulated returns *)

Lemma list_index_lt (products : list string) (p : string) (idx : nat) :
  Py.list_index products p = Some idx -> (idx < length products)%nat.
Proof.
  revert idx. induction products as [| y rest IH]; intros idx; simpl;
    [discriminate |].
  destruct (String.eqb y p).
  - intros E. injection E as <-. lia.
  - destruct (Py.list_index rest p) as [i |]; [| discriminate].
    intros E. injection E as <-. specialize (IH i eq_refl). lia.
Qed.

Lemma column_ok (m : Np.matrix) (idx : nat) :
  (forall row, In row m -> (idx < length row)%nat) ->
  exists col,
    Np.column m idx = Ok col /\ length col = length m /\
    forall i, (i < length m)%nat -> nth i col 0 = nth idx (nth i m []) 0.
Proof.
  induction m as [| row m IH]; intros H.
  - exists []. repeat split. intros i Hi. simpl in Hi. lia.
  - cbn [Np.column].
    destruct (nth_error row idx) as [x |] eqn:N.
    + destruct IH as [col [E [Lc Hc]]];
        [intros r Hr; apply H; right; exact Hr |].
      rewrite E. cbn [bind]. exists (x :: col).
      split; [reflexivity |]. split; [simpl; congruence |].
      intros [| i] Hi; simpl.
      * symmetry. apply nth_error_nth. exact N.
      * apply Hc. simpl in Hi. lia.
    + apply nth_error_None in N.
      specialize (H row (or_introl eq_refl)). lia.
Qed.

Lemma aggregate_loop_json (products : list string) (m : Np.matrix)
  (total_value : Q) (hs : list Holding) :
  (forall row, In row m -> (length products <= length row)%nat) ->
  forall acc,
    length acc = length m ->
    exists l,
      aggregate_loop products m total_value (map json hs) acc = Ok l /\
      length l = length m /\
      forall i, (i < length m)%nat ->
        nth i l 0
        == nth i acc 0
           + total (map (simulated_term products total_value (nth i m [])) hs).
Proof.
  intros Hm. induction hs as [| h hs IH]; intros acc Hacc.
  - exists acc. repeat split; auto. intros i _. simpl. ring.
  - cbn [map aggregate_loop json full_position product position
         Py.getitem bind].
    destruct (Py.list_index products (h_product h)) as [idx |] eqn:D.
    + rewrite !position_value_json. cbn [bind].
      pose proof (list_index_lt _ _ _ D) as Hidx.
      destruct (column_ok m idx) as [col [Ec [Lc Hc]]].
      { intros row Hr. specialize (Hm row Hr). lia. }
      rewrite Ec. cbn [bind].
      destruct (String.eqb (h_side h) "Short") eqn:S.
      * destruct (IH (Np.sub acc (Np.scale (exposure h / total_value) col)))
          as [l [E [Ll Hl]]].
        { rewrite sub_length, scale_length. lia. }
        exists l. repeat split; auto. intros i Hi.
        rewrite (Hl i Hi), nth_sub, nth_scale, (Hc i Hi)
          by (rewrite ?scale_length; lia).
        cbn [map total]. unfold simulated_term at 2. rewrite D.
        unfold aggregation_sign. rewrite S. ring.
      * destruct (IH (Np.add acc (Np.scale (exposure h / total_value) col)))
          as [l [E [Ll Hl]]].
        { rewrite add_length, scale_length. lia. }
        exists l. repeat split; auto. intros i Hi.
        rewrite (Hl i Hi), nth_add, nth_scale, (Hc i Hi)
          by (rewrite ?scale_length; lia).
        cbn [map total]. unfold simulated_term at 2. rewrite D.
        unfold aggregation_sign. rewrite S. ring.
    + destruct (IH acc Hacc) as [l [E [Ll Hl]]].
      exists l. repeat split; auto. intros i Hi.
      rewrite (Hl i Hi). cbn [map total]. unfold simulated_term at 2.
      rewrite D. ring.
Qed.

Lemma aggregate_entries (hs : list Holding)
  (products : list string) (m : Np.matrix) (v : Q) :
  _calculate_portfolio_value (map json hs) = Ok v ->
  ~ v == 0 ->
  (forall row, In row m -> (length products <= length row)%nat) ->
  exists l,
    _aggregate_simulated_returns (map json hs) products m = Ok l /\
    length l = length m /\
    forall i, (i < length m)%nat ->
      nth i l 0 == total (map (simulated_term products v (nth i m [])) hs).
Proof.
  intros Hv Hz Hm. unfold _aggregate_simulated_returns.
  rewrite Hv. cbn [bind].
  destruct (Qeq_bool v 0) eqn:Q0; [apply Qeq_bool_iff in Q0; contradiction |].
  destruct (aggregate_loop_json products m v hs Hm (Np.zeros (length m))
              (zeros_length _)) as [l [E [Ll Hl]]].
  exists l. repeat split; auto. intros i Hi.
  rewrite (Hl i Hi), nth_zeros. ring.
Qed.

(** X11. For complete positions with a non-zero total exposure and a
    simulated matrix with a column per product, [_aggregate_simulated_returns]
    returns one figure per simulated row: the sum over the positions
    whose product is among [products] of [exposure / total * sign * x],
    where [x] is the row's entry in the column of the first occurrence
    of the product and [sign] is [-1] for [Short], [+1] otherwise. *)
Theorem aggregate_simulated_formula (hs : list Holding)
  (products : list string) (m : Np.matrix) (v : Q) :
  _calculate_portfolio_value (map json hs) = Ok v ->
  ~ v == 0 ->
  (forall row, In row m -> (length products <= length row)%nat) ->
  exists l,
    _aggregate_simulated_returns (map json hs) products m = Ok l /\
    length l = length m /\
    forall i, (i < length m)%nat ->
      nth i l 0 == total (map (simulated_term products v (nth i m [])) hs).
Proof.
  apply aggregate_entries.
Qed.

Lemma aggregate_simulated_formula_witness :
  let m : Np.matrix := [[0.01; 0.02]; [- 0.03; 0.01]] in
  exists l,
    _aggregate_simulated_returns
      (map json [mkHolding "WTI" 10 100 80 "Short"]) ["BRENT"; "WTI"] m
      = Ok l /\
    length l = length m /\
    forall i, (i < length m)%nat ->
      nth i l 0
      == total (map (simulated_term ["BRENT"; "WTI"] 80000 (nth i m []))
                  [mkHolding "WTI" 10 100 80 "Short"]).
Proof.
  intros m. apply aggregate_simulated_formula.
  - reflexivity.
  - discriminate.
  - intros row [<- | [<- | []]]; simpl; lia.
Defined.

(** ** The entry point *)

Section EntryPoint.

Context {L : NumLib}.

(** X12. The exit status of [main] is 1 exactly when it prints the error
    object [{error, var95: 0.0, var99: 0.0}], and 0 otherwise; in
    particular an unknown method is answered with status 0. *)
Theorem main_status_matches_output (stdin : option InputData)
  (g : rng_state) :
  let printed := fst (fst (main stdin g)) in
  let status := snd (fst (main stdin g)) in
  (status = 1%Z <-> exists e, printed = PrintedError e) /\
  (status = 0%Z \/ status = 1%Z).
Proof.
  cbv zeta. unfold main, construct, __init__.
  destruct stdin as [input |]; cbn [fst snd];
    [| split; [split; eauto | auto]].
  destruct (seed_accepted _); cbn [fst snd];
    [| split; [split; eauto | auto]].
  destruct (String.eqb _ "garch").
  { destruct (calculate_garch_var _ _ _) as [r | x]; cbn [fst snd];
      (split; [split; [discriminate || eauto | intros [y E]; congruence]
              | auto]). }
  destruct (String.eqb _ "montecarlo").
  { destruct (calculate_monte_carlo_var _ _ _ _ _) as [[r | x] g'];
      cbn [fst snd];
      (split; [split; [discriminate || eauto | intros [y E]; congruence]
              | auto]). }
  destruct (String.eqb _ "stress").
  { destruct (run_stress_tests _ _) as [r | x]; cbn [fst snd];
      (split; [split; [discriminate || eauto | intros [y E]; congruence]
              | auto]). }
  cbn [fst snd]. split; [split; [discriminate | intros [y E]; congruence] |].
  auto.
Qed.

(** X13. With a seed that [np.random.seed] accepts, a method other than
    [garch], [montecarlo] and [stress] is answered with the object
    [{error: "Unknown method: ..."}], which has no [var95] and [var99],
    and with exit status 0; the engine has been constructed before the
    method is examined, so the process-wide generator has been reseeded
    all the same.  With any other seed the constructor raises, and the
    answer is the error object with exit status 1, the generator
    untouched. *)
Theorem main_unknown_method (input : InputData) (g : rng_state) (m : string) :
  in_method input = Some m ->
  m <> "garch" -> m <> "montecarlo" -> m <> "stress" ->
  let s := get_default (in_seed input) 42%Z in
  (seed_accepted s = true ->
   main (Some input) g = (PrintedUnknownMethod m, 0%Z, random_seed s)) /\
  (seed_accepted s = false ->
   exists e, main (Some input) g = (PrintedError e, 1%Z, g)).
Proof.
  intros Hm G M S. cbv zeta. unfold main, construct, __init__.
  rewrite Hm. cbn [get_default].
  apply String.eqb_neq in G, M, S.
  split; intros A; rewrite A.
  - rewrite G, M, S. reflexivity.
  - eexists. reflexivity.
Qed.

(** X14. With a seed that [np.random.seed] accepts, a [garch] or
    [montecarlo] request (or one without [method]) whose positions all
    have every key is answered with a VaR object and exit status 0,
    whatever the numerical libraries do. *)
Theorem main_answers_complete_requests (input : InputData) (g : rng_state)
  (hs : list Holding) :
  seed_accepted (get_default (in_seed input) 42%Z) = true ->
  in_positions input = Some (map json hs) ->
  in_method input = None \/ in_method input = Some "garch"
  \/ in_method input = Some "montecarlo" ->
  exists vr,
    fst (main (Some input) g) = (PrintedVaR vr, 0%Z).
Proof.
  intros Hs Hp Hm. unfold main, construct, __init__. rewrite Hs, Hp.
  cbn [get_default].
  destruct (json_positions_ok (mkEngine (get_default (in_seed input) 42%Z))
              hs (get_default (in_returns input) [])
              (get_default (in_simulations input) default_simulations)
              (random_seed (get_default (in_seed input) 42%Z)))
    as [vr [vr' [G M]]].
  destruct Hm as [-> | [-> | ->]]; cbn [get_default].
  - change (String.eqb "garch" "garch") with true. cbv iota.
    rewrite G. exists vr. reflexivity.
  - change (String.eqb "garch" "garch") with true. cbv iota.
    rewrite G. exists vr. reflexivity.
  - change (String.eqb "montecarlo" "garch") with false.
    change (String.eqb "montecarlo" "montecarlo") with true. cbv iota.
    destruct (calculate_monte_carlo_var _ _ _ _ _) as [res g'].
    cbn [fst] in M. rewrite M. exists vr'. reflexivity.
Qed.

End EntryPoint.

Lemma main_status_matches_output_witness :
  snd (fst (main (L := Ref.ewma_lib)
              (Some (mkInput (Some "stress") (Some Sample.broken_book) None
                       None None (Some Sample.prices))) 7%Z)) = 1%Z.
Proof.
  apply (proj1 (main_status_matches_output (L := Ref.ewma_lib)
                  (Some (mkInput (Some "stress") (Some Sample.broken_book)
                           None None None (Some Sample.prices))) 7%Z)).
  eexists. vm_compute. reflexivity.
Defined.

Lemma main_unknown_method_witness :
  main (L := Ref.ewma_lib)
    (Some (mkInput (Some "var") (Some Sample.book) None (Some 7%Z) None None))
    42%Z
  = (PrintedUnknownMethod "var", 0%Z, 7%Z) /\
  exists e,
    main (L := Ref.ewma_lib)
      (Some (mkInput (Some "var") (Some Sample.book) None (Some (-1)%Z) None
               None))
      42%Z
    = (PrintedError e, 1%Z, 42%Z).
Proof.
  split.
  - apply (proj1 (main_unknown_method (L := Ref.ewma_lib)
                    (mkInput (Some "var") (Some Sample.book) None (Some 7%Z)
                       None None) 42%Z "var" eq_refl
                    ltac:(discriminate) ltac:(discriminate)
                    ltac:(discriminate))).
    reflexivity.
  - apply (proj2 (main_unknown_method (L := Ref.ewma_lib)
                    (mkInput (Some "var") (Some Sample.book) None
                       (Some (-1)%Z) None None) 42%Z "var" eq_refl
                    ltac:(discriminate) ltac:(discriminate)
                    ltac:(discriminate))).
    reflexivity.
Defined.

Lemma main_answers_complete_requests_witness :
  exists vr,
    fst (main (L := Ref.arch_lib)
           (Some (mkInput (Some "montecarlo")
                    (Some (map json [mkHolding "BRENT" 1000 1 85 "Long"]))
                    (Some Sample.returns_two) None (Some 10%nat) None))
           42%Z)
    = (PrintedVaR vr, 0%Z).
Proof.
  apply (main_answers_complete_requests (L := Ref.arch_lib) _ _
           [mkHolding "BRENT" 1000 1 85 "Long"]).
  - reflexivity.
  - reflexivity.
  - right. right. reflexivity.
Defined.

(** ** The price generator *)

Section PriceSeries.

Context {L : NumLib} {D : Generator.ScalarDraws L}.

Lemma price_loop_shape (config : Generator.ProductConfig) (steps : nat) :
  forall previous g,
    let out := Generator.price_loop config steps previous g in
    length (fst (fst out)) = steps /\
    length (snd (fst out)) = steps /\
    Forall (fun p => Generator.base_price config * 0.3 <= p) (fst (fst out)) /\
    forall i, (i < steps)%nat ->
      nth i (fst (fst out)) 0
      = Qmax (nth i (previous :: fst (fst out)) 0
              * (1 + nth i (snd (fst out)) 0))
          (Generator.base_price config * 0.3).
Proof.
  induction steps as [| k IH]; intros previous g; cbv zeta.
  - cbn [Generator.price_loop fst snd length]. repeat split; auto.
    intros i Hi. lia.
  - cbn [Generator.price_loop].
    destruct (Generator.random_normal1 0 (Generator.volatility config) g)
      as [shock g1].
    destruct (Generator.random_random g1) as [u g2].
    match goal with
    | |- context [Generator.price_loop config k ?p g2] =>
        specialize (IH p g2); cbv zeta in IH;
        destruct (Generator.price_loop config k p g2) as [[ps rs] g3] eqn:E
    end.
    cbn [fst snd] in *. destruct IH as [Lp [Lr [F S]]].
    split; [simpl; congruence |]. split; [simpl; congruence |].
    split.
    + constructor; [| exact F]. apply Q.le_max_r.
    + intros [| i] Hi; [reflexivity |].
      cbn [nth]. rewrite (S i) by lia. reflexivity.
Qed.

Lemma configured_base_positive (code : string)
  (config : Generator.ProductConfig) :
  Py.dict_get Generator.products code = Some config ->
  0 < Generator.base_price config.
Proof.
  unfold Generator.products. cbn [Py.dict_get].
  repeat match goal with
         | |- context [String.eqb ?a code] => destruct (String.eqb a code)
         end;
    intros E; try discriminate; injection E as <-; reflexivity.
Qed.

(** X15. A generated series has [days] prices and [days] returns, starts at
    the base price of the product with a return of 0, and every later
    price is the previous one grown by the day's return and floored at
    30% of the base price; so every price of a configured product is at
    least 30% of its base price, hence positive.  An unknown product
    code raises [KeyError] and [days = 0] raises [IndexError], both
    before any draw. *)
Theorem generated_prices_stay_above_floor (code : string) (days : nat)
  (g : rng_state) :
  match Py.dict_get Generator.products code with
  | None =>
      Generator.generate_price_series code days g = (Raise (KeyError code), g)
  | Some config =>
      let base := Generator.base_price config in
      (days = O ->
       Generator.generate_price_series code days g = (Raise IndexError, g)) /\
      ((0 < days)%nat ->
       exists prices returns,
         fst (Generator.generate_price_series code days g)
           = Ok (prices, returns) /\
         length prices = days /\ length returns = days /\
         nth 0 prices 0 = base /\ nth 0 returns 1 = 0 /\
         Forall (fun p => base * 0.3 <= p /\ 0 < p) prices /\
         forall i, (S i < days)%nat ->
           nth (S i) prices 0
           = Qmax (nth i prices 0 * (1 + nth (S i) returns 0)) (base * 0.3))
  end.
Proof.
  unfold Generator.generate_price_series.
  destruct (Py.dict_get Generator.products code) as [config |] eqn:C;
    [| reflexivity].
  pose proof (configured_base_positive code config C) as B.
  cbv zeta. split; [intros ->; reflexivity |].
  intros Hd. destruct days as [| k]; [lia |].
  pose proof (price_loop_shape config k (Generator.base_price config) g) as P.
  cbv zeta in P.
  destruct (Generator.price_loop config k (Generator.base_price config) g)
    as [[ps rs] g'].
  cbn [fst snd] in *. destruct P as [Lp [Lr [F S]]].
  exists (Generator.base_price config :: ps), (0 :: rs).
  split; [reflexivity |]. split; [simpl; congruence |].
  split; [simpl; congruence |]. split; [reflexivity |].
  split; [reflexivity |]. split.
  - assert (Fl : 0 < Generator.base_price config * 0.3).
    { apply Qmult_lt_0_compat; [exact B | reflexivity]. }
    constructor.
    + split; [| exact B].
      setoid_replace (Generator.base_price config)
        with (Generator.base_price config * 0.3
              + Generator.base_price config * 0.7) at 2 by ring.
      assert (0 < Generator.base_price config * 0.7)
        by (apply Qmult_lt_0_compat; [exact B | reflexivity]).
      lra.
    + eapply Forall_impl; [| exact F]. intros p Hp. cbv beta in *.
      split; [exact Hp | lra].
  - intros i Hi. cbn [nth]. apply S. lia.
Qed.

End PriceSeries.

Lemma generated_prices_stay_above_floor_witness :
  exists prices returns,
    fst (Generator.generate_price_series (D := Generator.ref_draws)
           "BRENT" 4 42%Z) = Ok (prices, returns) /\
    length prices = 4%nat /\ length returns = 4%nat /\
    nth 0 prices 0 = 85.00 /\ nth 0 returns 1 = 0 /\
    Forall (fun p => 85.00 * 0.3 <= p /\ 0 < p) prices /\
    forall i, (S i < 4)%nat ->
      nth (S i) prices 0
      = Qmax (nth i prices 0 * (1 + nth (S i) returns 0)) (85.00 * 0.3).
Proof.
  apply (proj2 (generated_prices_stay_above_floor (D := Generator.ref_draws)
                  "BRENT" 4 42%Z)).
  lia.
Defined.

(** ** Historical VaR and the order of the observations *)

Lemma insert_pointwise (x : Q) (l l' : list Q) :
  Forall2 Qeq l l' -> Forall2 Qeq (Np.insert x l) (Np.insert x l').
Proof.
  intros H. induction H as [| y y' l l' Hy Hl IH]; simpl.
  - constructor; [reflexivity | constructor].
  - assert (E : Qle_bool x y = Qle_bool x y').
    { destruct (Qle_bool x y) eqn:A; destruct (Qle_bool x y') eqn:B;
        try reflexivity.
      - apply Qle_bool_iff in A. rewrite Hy in A. apply Qle_bool_iff in A.
        congruence.
      - apply Qle_bool_iff in B. rewrite <- Hy in B. apply Qle_bool_iff in B.
        congruence. }
    rewrite E. destruct (Qle_bool x y').
    + constructor; [reflexivity |]. constructor; assumption.
    + constructor; assumption.
Qed.

Lemma pointwise_refl (l : list Q) : Forall2 Qeq l l.
Proof.
  induction l; constructor; [reflexivity | assumption].
Qed.

Lemma pointwise_trans (l1 l2 l3 : list Q) :
  Forall2 Qeq l1 l2 -> Forall2 Qeq l2 l3 -> Forall2 Qeq l1 l3.
Proof.
  intros H. revert l3. induction H as [| x y l1 l2 Hxy H IH]; intros l3 K;
    inversion K; subst; constructor.
  - etransitivity; eassumption.
  - apply IH. assumption.
Qed.

Lemma not_le_bool (x y : Q) : Qle_bool x y = false -> y < x.
Proof.
  intros H. destruct (Qlt_le_dec y x) as [A | A]; [exact A |].
  apply Qle_bool_iff in A. congruence.
Qed.

Lemma insert_insert (x y : Q) (l : list Q) :
  Forall2 Qeq (Np.insert x (Np.insert y l)) (Np.insert y (Np.insert x l)).
Proof.
  induction l as [| z l IH].
  - simpl. destruct (Qle_bool x y) eqn:A; destruct (Qle_bool y x) eqn:B.
    + apply Qle_bool_iff in A, B.
      assert (x == y) by (apply Qle_antisym; assumption).
      repeat constructor; [assumption | symmetry; assumption].
    + apply pointwise_refl.
    + apply pointwise_refl.
    + apply not_le_bool in A, B. exfalso. lra.
  - cbn [Np.insert].
    destruct (Qle_bool y z) eqn:Y; destruct (Qle_bool x z) eqn:X;
      cbn [Np.insert]; rewrite ?X, ?Y.
    + destruct (Qle_bool x y) eqn:A; destruct (Qle_bool y x) eqn:B;
        rewrite ?X, ?Y.
      * apply Qle_bool_iff in A, B.
        assert (x == y) by (apply Qle_antisym; assumption).
        constructor; [assumption |].
        constructor; [symmetry; assumption | apply pointwise_refl].
      * apply pointwise_refl.
      * apply pointwise_refl.
      * apply not_le_bool in A, B. exfalso. lra.
    + destruct (Qle_bool x y) eqn:A.
      * apply Qle_bool_iff in A, Y. apply not_le_bool in X. exfalso. lra.
      * rewrite ?X. apply pointwise_refl.
    + destruct (Qle_bool y x) eqn:B.
      * apply Qle_bool_iff in B, X. apply not_le_bool in Y. exfalso. lra.
      * rewrite ?Y. apply pointwise_refl.
    + constructor; [reflexivity | exact IH].
Qed.

Lemma sort_permutation_pointwise (r r' : list Q) :
  Permutation r r' -> Forall2 Qeq (Np.sort r) (Np.sort r').
Proof.
  intros P. induction P.
  - constructor.
  - change (Forall2 Qeq (Np.insert x (Np.sort l)) (Np.insert x (Np.sort l'))).
    apply insert_pointwise. exact IHP.
  - change (Forall2 Qeq (Np.insert y (Np.insert x (Np.sort l)))
              (Np.insert x (Np.insert y (Np.sort l)))).
    apply insert_insert.
  - eapply pointwise_trans; eassumption.
Qed.

Lemma pointwise_nth (l l' : list Q) (i : nat) :
  Forall2 Qeq l l' -> nth i l 0 == nth i l' 0.
Proof.
  intros H. revert i. induction H; intros [| i]; simpl;
    try reflexivity; auto.
Qed.

(** X16. Historical VaR depends on the observations only, not on their
    order: reordering the return series leaves both figures unchanged. *)
Theorem historical_var_order_independent (r r' : list Q) (v : Q) :
  Permutation r r' -> _historical_var r v = _historical_var r' v.
Proof.
  intros P.
  pose proof (Permutation_length P) as Len.
  destruct r as [| x r0]; destruct r' as [| x' r0']; try discriminate;
    [reflexivity |].
  rewrite !historical_var_nonempty by discriminate.
  rewrite <- Len.
  pose proof (sort_permutation_pointwise _ _ P) as S.
  assert (A : forall i,
             Qabs (nth i (Np.sort (x :: r0)) 0 * v)
             == Qabs (nth i (Np.sort (x' :: r0')) 0 * v)).
  { intros i. rewrite (pointwise_nth _ _ i S). reflexivity. }
  rewrite (round_comp _ _ (A (length (x :: r0) / 20)%nat)).
  rewrite (round_comp _ _ (A (length (x :: r0) / 100)%nat)).
  reflexivity.
Qed.

Lemma historical_var_order_independent_witness :
  _historical_var [0.02; - 0.03; 0.01] 1000
  = _historical_var [- 0.03; 0.02; 0.01] 1000.
Proof.
  apply historical_var_order_independent. apply perm_swap.
Defined.

(** ** The two aggregations agree *)

Lemma list_index_keys (d : Returns) (p : string) :
  match Py.list_index (Py.dict_keys d) p with
  | Some idx => Py.dict_get d p = Some (nth idx (Py.dict_values d) [])
  | None => Py.dict_get d p = None
  end.
Proof.
  induction d as [| [k s] d IH]; simpl; [reflexivity |].
  destruct (String.eqb k p); [reflexivity |].
  destruct (Py.list_index (Py.dict_keys d) p); exact IH.
Qed.

Lemma returns_matrix_row (returns : Returns) (j : nat) :
  (j < min_length returns)%nat ->
  nth j (returns_matrix returns) []
  = map (fun series => nth j series 0) (Py.dict_values returns).
Proof.
  intros H. unfold returns_matrix.
  rewrite (nth_indep _ []
             ((fun i => map (fun series => nth i series 0)
                          (Py.dict_values returns)) O))
    by (rewrite length_map, length_seq; exact H).
  rewrite (map_nth (fun i => map (fun series => nth i series 0)
                                 (Py.dict_values returns))).
  rewrite seq_nth by exact H. reflexivity.
Qed.

Lemma terms_agree (returns : Returns) (v : Q) (j : nat) (h : Holding) :
  simulated_term (Py.dict_keys returns) v
    (map (fun series => nth j series 0) (Py.dict_values returns)) h
  = weighted_term returns v j h.
Proof.
  unfold simulated_term, weighted_term.
  pose proof (list_index_keys returns (h_product h)) as K.
  destruct (Py.list_index (Py.dict_keys returns) (h_product h)) as [idx |]
    eqn:I; rewrite K; [| reflexivity].
  apply list_index_lt in I. unfold Py.dict_keys in I. rewrite length_map in I.
  rewrite (nth_indep _ 0 ((fun series => nth j series 0) []))
    by (unfold Py.dict_values; rewrite !length_map; exact I).
  rewrite (map_nth (fun series => nth j series 0)). reflexivity.
Qed.

(** X17. The aggregation used on simulated returns and the weighted return
    series follow one rule: for complete positions with a non-zero
    exposure, aggregating the rows of the historical return matrix over
    the keys of [returns] gives, entry by entry, the weighted return
    series. *)
Theorem aggregation_reproduces_weighted_series (hs : list Holding)
  (returns : Returns) (v : Q) :
  _calculate_portfolio_value (map json hs) = Ok v ->
  ~ v == 0 ->
  (0 < min_length returns)%nat ->
  exists l r,
    _aggregate_simulated_returns (map json hs) (Py.dict_keys returns)
      (returns_matrix returns) = Ok l /\
    _calculate_portfolio_returns (map json hs) returns = Ok r /\
    length l = length r /\
    forall j, (j < length r)%nat -> nth j l 0 == nth j r 0.
Proof.
  intros Hv Hz Hn.
  destruct (weighted_series_entries hs returns v Hv Hz Hn) as [r [Er [Lr Hr]]].
  assert (Lm : length (returns_matrix returns) = min_length returns)
    by (unfold returns_matrix; rewrite length_map, length_seq; reflexivity).
  destruct (aggregate_entries hs (Py.dict_keys returns)
              (returns_matrix returns) v Hv Hz) as [l [El [Ll Hl]]].
  { intros row Hrow. unfold returns_matrix in Hrow.
    apply in_map_iff in Hrow. destruct Hrow as [j [<- _]].
    unfold Py.dict_keys, Py.dict_values. rewrite !length_map. lia. }
  exists l, r. split; [exact El |]. split; [exact Er |].
  split; [congruence |].
  intros j Hj. rewrite Lr in Hj.
  rewrite (Hl j) by lia. rewrite (Hr j Hj).
  rewrite (returns_matrix_row returns j Hj).
  apply total_map_ext. intros h _. rewrite terms_agree. reflexivity.
Qed.

Lemma aggregation_reproduces_weighted_series_witness :
  exists l r,
    _aggregate_simulated_returns
      (map json [mkHolding "BRENT" 1000 1 85 "Short"])
      (Py.dict_keys Sample.returns_two) (returns_matrix Sample.returns_two)
      = Ok l /\
    _calculate_portfolio_returns
      (map json [mkHolding "BRENT" 1000 1 85 "Short"]) Sample.returns_two
      = Ok r /\
    length l = length r /\
    forall j, (j < length r)%nat -> nth j l 0 == nth j r 0.
Proof.
  apply (aggregation_reproduces_weighted_series
           [mkHolding "BRENT" 1000 1 85 "Short"] Sample.returns_two 85000).
  - reflexivity.
  - discriminate.
  - vm_compute. lia.
Defined.
